(** * BookTopia reading log: statistics, validation and leaderboard

    A shallow embedding of the reading-log logic of the BookTopia
    front-end (js/reading-log.js in its Supabase and its Appwrite variant,
    the latter with the configuration script that sets up its services
    and with getProfile of js/auth.js, the date utilities of js/utils.js,
    and the parts of js/dashboard.js that compute what is shown).

    Conventions of the embedding.
    - A JavaScript number that the code treats as a count or as a
      timestamp is an integer [Z]; a number that comes from the user
      (pagesRead) or from a division is a rational [Q].
    - A [Date] object is its time value: milliseconds since the epoch, UTC.
    - A date string YYYY-MM-DD is the calendar day it denotes, counted in
      days since 1970-01-01 ([days_from_civil] and [civil_from_days] are
      the two directions of that correspondence).
    - Division is exact.  The quotients that the code rounds are of
      integers far below 2^53, for which rounding the nearest double gives
      the same integer as rounding the exact quotient.
    - The environment [Env] holds the clock and the offset of local time
      from UTC, which is taken to be constant (no daylight-saving change
      inside the few days the code looks at).
    - The global object [window] is the map from property names to what
      the scripts assigned to them; a property that no script assigns is
      [undefined], and a method call on it throws a [TypeError]. *)

From Stdlib Require Import ZArith QArith Qround List String Bool Lia Lqa.
From Stdlib Require Import Permutation Sorting.Sorted DecimalString FinFun.
Import ListNotations.

Close Scope Q_scope.
Open Scope string_scope.
Open Scope list_scope.
Open Scope Z_scope.

(** ** JavaScript numbers *)

(** [Math.round]: the nearest integer, ties towards +infinity. *)
Definition Math_round (x : Q) : Z := Qfloor (x + (1 # 2))%Q.

(** [a / b] on two integer-valued numbers. *)
Definition js_div (a b : Z) : Q := (inject_Z a / inject_Z b)%Q.

(** [parseInt(x)] on a number: the integer part, towards zero. *)
Definition parseInt (x : Q) : Z := Z.quot (Qnum x) (Zpos (Qden x)).

(** A number that holds an integer value. *)
Definition is_integer (x : Q) : bool := Qeq_bool x (inject_Z (Qfloor x)).

(** ** Dates (js/utils.js) *)

Definition MS_PER_DAY : Z := 1000 * 60 * 60 * 24.

Record Env := mkEnv {
  now : Z;        (* time value of [new Date()] *)
  tzOffset : Z    (* local time minus UTC, in milliseconds *)
}.

(** The calendar day, in local time, that a time value falls on. *)
Definition localDay (env : Env) (t : Z) : Z := (t + tzOffset env) / MS_PER_DAY.

(** [new Date(dateString)] on a date-only string: midnight UTC of that day. *)
Definition Date_of_string (dateString : Z) : Z := dateString * MS_PER_DAY.

(** [date.setHours(0, 0, 0, 0)]: local midnight of the local day. *)
Definition setHours0 (env : Env) (t : Z) : Z :=
  localDay env t * MS_PER_DAY - tzOffset env.

(** [date.setDate(date.getDate() - n)]. *)
Definition setDate_back (t n : Z) : Z := t - n * MS_PER_DAY.

(** [formatDateForInput]: the local calendar day as YYYY-MM-DD. *)
Definition formatDateForInput (env : Env) (date : Z) : Z := localDay env date.

Definition getToday (env : Env) : Z := formatDateForInput env (now env).

Definition getDaysAgo (env : Env) (days : Z) : Z :=
  formatDateForInput env (setDate_back (now env) days).

(** Proleptic Gregorian calendar: day count of a civil date and back. *)
Definition days_from_civil (y m d : Z) : Z :=
  let y' := if m <=? 2 then y - 1 else y in
  let era := y' / 400 in
  let yoe := y' - era * 400 in
  let doy := (153 * (if 2 <? m then m - 3 else m + 9) + 2) / 5 + d - 1 in
  let doe := yoe * 365 + yoe / 4 - yoe / 100 + doy in
  era * 146097 + doe - 719468.

Definition civil_from_days (z : Z) : Z * Z * Z :=
  let z' := z + 719468 in
  let era := z' / 146097 in
  let doe := z' - era * 146097 in
  let yoe := (doe - doe / 1460 + doe / 36524 - doe / 146096) / 365 in
  let doy := doe - (365 * yoe + yoe / 4 - yoe / 100) in
  let mp := (5 * doy + 2) / 153 in
  let d := doy - (153 * mp + 2) / 5 + 1 in
  let m := if mp <? 10 then mp + 3 else mp - 9 in
  ((if m <=? 2 then yoe + era * 400 + 1 else yoe + era * 400), m, d).

(** [getMonthStart]: [new Date(year, month, 1)] in local time. *)
Definition getMonthStart (env : Env) : Z :=
  let '(y, m, _) := civil_from_days (localDay env (now env)) in
  days_from_civil y m 1 * MS_PER_DAY - tzOffset env.

(** [isDateInRange(dateString, daysBack)]. *)
Definition isDateInRange (env : Env) (dateString : Z) (daysBack : Z) : bool :=
  let today := setHours0 env (now env) in
  let checkDate := setHours0 env (Date_of_string dateString) in
  let minDate := setDate_back today daysBack in
  (minDate <=? checkDate) && (checkDate <=? today).

(** ** Sorting and sets *)

(** [Array.prototype.sort(cmp)] is stable: an element goes after the
    elements that compare strictly before it and ahead of the others. *)
Section Sort.
Context {A : Type}.
Variable cmp : A -> A -> Z.

Fixpoint sort_insert (x : A) (l : list A) : list A :=
  match l with
  | [] => [x]
  | y :: l' => if cmp y x <? 0 then y :: sort_insert x l' else x :: l
  end.

Definition Array_sort (l : list A) : list A :=
  fold_right sort_insert [] l.
End Sort.

(** A [Set] of date strings, in insertion order. *)
Definition Set_has (s : list Z) (x : Z) : bool := existsb (Z.eqb x) s.

Definition Set_add (s : list Z) (x : Z) : list Z :=
  if Set_has s x then s else s ++ [x].

Definition Set_of (l : list Z) : list Z := fold_left Set_add l [].

(** ** Reading log entries *)

Record LogEntry := mkLog {
  entry_id : string;
  user_id : string;
  log_date : Z;
  pages_read : Z;
  updated_at : Z
}.

(** ** Statistics (identical in both variants of js/reading-log.js) *)

Record Stats := mkStats {
  totalPages : Z;
  daysLogged : Z;
  avgPages : Z;
  currentStreak : Z;
  longestStreak : Z
}.

(** The [while (true)] loop of the current streak.  The loop has no bound
    of its own; [fuel] counts its iterations and [None] is running out. *)
Fixpoint streak_loop (fuel : nat) (env : Env) (loggedDates : list Z)
    (checkDate currentStreak : Z) : option Z :=
  match fuel with
  | O => None
  | S fuel' =>
      let dateStr := formatDateForInput env checkDate in
      if Set_has loggedDates dateStr
      then streak_loop fuel' env loggedDates (setDate_back checkDate 1)
             (currentStreak + 1)
      else Some currentStreak
  end.

(** One pass of the [for (const log of sortedLogs)] loop; the state is
    (longestStreak, tempStreak, prevDate). *)
Definition longest_step (env : Env) (st : Z * Z * option Z) (log : LogEntry)
    : Z * Z * option Z :=
  let '(longestStreak, tempStreak, prevDate) := st in
  let currentDate := setHours0 env (Date_of_string (log_date log)) in
  match prevDate with
  | Some prev =>
      let dayDiff := Math_round (js_div (currentDate - prev) MS_PER_DAY) in
      if dayDiff =? 1
      then (longestStreak, tempStreak + 1, Some currentDate)
      else (Z.max longestStreak tempStreak, 1, Some currentDate)
  | None => (longestStreak, 1, Some currentDate)
  end.

Definition by_log_date (a b : LogEntry) : Z :=
  Date_of_string (log_date a) - Date_of_string (log_date b).

(** [calculateStreaks(logs)]: (currentStreak, longestStreak). *)
Definition calculateStreaks (fuel : nat) (env : Env) (logs : list LogEntry)
    : option (Z * Z) :=
  match logs with
  | [] => Some (0, 0)
  | _ =>
      let sortedLogs := Array_sort by_log_date logs in
      let loggedDates := Set_of (map log_date sortedLogs) in
      let checkDate := setHours0 env (now env) in
      let todayStr := formatDateForInput env checkDate in
      let checkDate :=
        if negb (Set_has loggedDates todayStr)
        then setDate_back checkDate 1 else checkDate in
      match streak_loop fuel env loggedDates checkDate 0 with
      | None => None
      | Some currentStreak =>
          let '(longestStreak, tempStreak, _) :=
            fold_left (longest_step env) sortedLogs (0, 0, None) in
          Some (currentStreak, Z.max longestStreak tempStreak)
      end
  end.

(** [calculateStats(logs)]. *)
Definition calculateStats (fuel : nat) (env : Env) (logs : list LogEntry)
    : option Stats :=
  match logs with
  | [] => Some (mkStats 0 0 0 0 0)
  | _ =>
      let totalPages := fold_left (fun sum log => sum + pages_read log) logs 0 in
      let daysLogged := Z.of_nat (List.length logs) in
      let avgPages := Math_round (js_div totalPages daysLogged) in
      match calculateStreaks fuel env logs with
      | None => None
      | Some (currentStreak, longestStreak) =>
          Some (mkStats totalPages daysLogged avgPages currentStreak longestStreak)
      end
  end.

(** ** Errors

    A function of the source either returns or throws.  What it throws is
    an [Error] it built itself from a message, the error object that the
    backend handed back, of which the model keeps the code, or the
    [TypeError] of a method call on [undefined]. *)

Inductive Thrown :=
| Error (message : string)
| BackendError (code : string)
| TypeError.

Definition Result (A : Type) : Type := Thrown + A.

Definition ret {A} (a : A) : Result A := inr a.
Definition throw {A} (e : Thrown) : Result A := inl e.

Definition Qlt_bool (a b : Q) : bool := negb (Qle_bool b a).

(** The page-count test shared by create and update:
    [pagesRead < 1 || pagesRead > 1000]. *)
Definition pages_out_of_bounds (pagesRead : Q) : bool :=
  Qlt_bool pagesRead 1 || Qlt_bool 1000 pagesRead.

Definition MSG_DATE_RANGE : string :=
  "You can only log entries for today or the past 3 days".
Definition MSG_PAGES : string := "Pages must be between 1 and 1000".
Definition MSG_EXISTS_PRECHECK : string :=
  "You already have an entry for this date. Please edit it instead.".
Definition MSG_EXISTS_STORAGE : string :=
  "You already have an entry for this date".
Definition MSG_UNKNOWN_USER : string := "Unknown User".

(** ** Queries

    The filters, ordering and limit that the code asks of either backend,
    on a table held as a list of rows in storage order. *)

Definition q_eq_user (userId : string) (rows : list LogEntry) : list LogEntry :=
  filter (fun r => String.eqb (user_id r) userId) rows.

Definition q_eq_date (logDate : Z) (rows : list LogEntry) : list LogEntry :=
  filter (fun r => log_date r =? logDate) rows.

Definition q_gte_date (startDate : Z) (rows : list LogEntry) : list LogEntry :=
  filter (fun r => startDate <=? log_date r) rows.

Definition q_lte_date (endDate : Z) (rows : list LogEntry) : list LogEntry :=
  filter (fun r => log_date r <=? endDate) rows.

Definition by_log_date_desc (a b : LogEntry) : Z := log_date b - log_date a.

Definition q_order_date_desc (rows : list LogEntry) : list LogEntry :=
  Array_sort by_log_date_desc rows.

Definition q_limit (n : nat) (rows : list LogEntry) : list LogEntry :=
  firstn n rows.

(** A default parameter: [None] is the argument left out. *)
Definition default_arg {A} (d : A) (o : option A) : A :=
  match o with
  | Some a => a
  | None => d
  end.

(** ** Profiles and leaderboard entries *)

Record Profile := mkProfile {
  profile_id : string;
  profile_username : string;
  profile_avatar_url : option string
}.

(** A leaderboard object.  [username], [avatarUrl] and [rank] are
    properties that the code adds as it goes; [None] is a property that is
    not there yet (or holds null). *)
Record Entry := mkEntry {
  userId : string;
  username : option string;
  avatarUrl : option string;
  entryTotalPages : Z;
  rank : option Z
}.

Definition has_user (uid : string) (userTotals : list Entry) : bool :=
  existsb (fun e => String.eqb (userId e) uid) userTotals.

(** [userTotals[uid].totalPages += pages]. *)
Definition add_pages (uid : string) (pages : Z) (userTotals : list Entry)
    : list Entry :=
  map (fun e =>
         if String.eqb (userId e) uid
         then mkEntry (userId e) (username e) (avatarUrl e)
                (entryTotalPages e + pages) (rank e)
         else e) userTotals.

(** The aggregation loop over the fetched rows.  [userTotals] is a plain
    object keyed by user id; user ids are UUIDs or 20-character document
    ids, never array indices, so [Object.values] lists it in insertion
    order, which is the order of the list. *)
Section Aggregate.
Context {Row : Type}.
Variable row_user : Row -> string.
Variable row_pages : Row -> Z.
Variable first_seen : Row -> Entry.

Definition aggregate_step (userTotals : list Entry) (row : Row) : list Entry :=
  let userTotals :=
    if has_user (row_user row) userTotals then userTotals
    else userTotals ++ [first_seen row] in
  add_pages (row_user row) (row_pages row) userTotals.

Definition aggregate (rows : list Row) : list Entry :=
  fold_left aggregate_step rows [].
End Aggregate.

Definition by_total_desc (a b : Entry) : Z := entryTotalPages b - entryTotalPages a.

(** [.map((entry, index) => ({ ...entry, rank: index + 1 }))], from [index]. *)
Fixpoint with_ranks (index : Z) (l : list Entry) : list Entry :=
  match l with
  | [] => []
  | e :: l' =>
      mkEntry (userId e) (username e) (avatarUrl e) (entryTotalPages e)
        (Some (index + 1)) :: with_ranks (index + 1) l'
  end.

(** ** The stored state

    Both backends hold a collection of profiles and a collection of reading
    logs.  The Supabase tables follow the schema of README.md:
    [reading_logs.pages_read] is INTEGER with CHECK (pages_read > 0),
    (user_id, log_date) is UNIQUE and [user_id] REFERENCES profiles(id). *)

Record Database := mkDb {
  profiles : list Profile;
  reading_logs : list LogEntry
}.

Definition find_profile (db : Database) (uid : string) : option Profile :=
  find (fun p => String.eqb (profile_id p) uid) (profiles db).

Definition set_pages (pages : Z) (stamp : Z) (r : LogEntry) : LogEntry :=
  mkLog (entry_id r) (user_id r) (log_date r) pages stamp.

(** Rows whose id is [logId] get [pages] and [stamp]; the others stay. *)
Definition update_by_id (logId : string) (pages stamp : Z)
    (rows : list LogEntry) : list LogEntry :=
  map (fun r => if String.eqb (entry_id r) logId
                then set_pages pages stamp r else r) rows.

(** ** js/reading-log.js, Supabase variant *)

Module Supabase.

(** [getLogByDate]: [maybeSingle()] gives null for no row, the row for
    one, and an error for several, which the function turns into null. *)
Definition getLogByDate (db : Database) (userId : string) (logDate : Z)
    : option LogEntry :=
  match q_eq_date logDate (q_eq_user userId (reading_logs db)) with
  | [row] => Some row
  | _ => None
  end.

(** [.insert({...}).select().single()] under the constraints of the
    schema; the left side is the SQLSTATE code of the error. *)
Definition insert_log (env : Env) (fresh : string) (db : Database)
    (userId : string) (logDate : Z) (pagesRead : Q)
    : string + (LogEntry * Database) :=
  if negb (is_integer pagesRead) then inl "22P02"%string
  else if Qfloor pagesRead <=? 0 then inl "23514"%string
  else if existsb (fun r => String.eqb (user_id r) userId
                            && (log_date r =? logDate)) (reading_logs db)
  then inl "23505"%string
  else match find_profile db userId with
       | None => inl "23503"%string
       | Some _ =>
           let data := mkLog fresh userId logDate (Qfloor pagesRead) (now env) in
           inr (data, mkDb (profiles db) (reading_logs db ++ [data]))
       end.

(** [addReadingLog(userId, logDate, pagesRead)].  The function awaits the
    lookup and then the insert; [other] is what other sessions did to the
    database in between (the identity when nothing else is running). *)
Definition addReadingLog (env : Env) (fresh : string)
    (other : Database -> Database) (db : Database)
    (userId : string) (logDate : Z) (pagesRead : Q)
    : Result (LogEntry * Database) :=
  if negb (isDateInRange env logDate 3) then throw (Error MSG_DATE_RANGE)
  else if pages_out_of_bounds pagesRead then throw (Error MSG_PAGES)
  else match getLogByDate db userId logDate with
       | Some _ => throw (Error MSG_EXISTS_PRECHECK)
       | None =>
           match insert_log env fresh (other db) userId logDate pagesRead with
           | inl code =>
               if String.eqb code "23505" then throw (Error MSG_EXISTS_STORAGE)
               else throw (BackendError code)
           | inr (data, db') => ret (data, db')
           end
       end.

(** [getUserLogs(userId, limit = 50)]. *)
Definition getUserLogs (db : Database) (userId : string) (limit : option nat)
    : list LogEntry :=
  q_limit (default_arg 50%nat limit)
    (q_order_date_desc (q_eq_user userId (reading_logs db))).

(** [updateReadingLog(logId, pagesRead)]: [.update({pages_read,
    updated_at}).eq('id', logId).select().single()].  [single()] is an
    error unless exactly one row comes back; [id] is the primary key, so
    that is the case of no row, where nothing was written. *)
Definition updateReadingLog (env : Env) (db : Database)
    (logId : string) (pagesRead : Q) : Result (LogEntry * Database) :=
  if pages_out_of_bounds pagesRead then throw (Error MSG_PAGES)
  else if negb (is_integer pagesRead) then throw (BackendError "22P02")
  else
    let rows := update_by_id logId (Qfloor pagesRead) (now env) (reading_logs db) in
    match filter (fun r => String.eqb (entry_id r) logId) rows with
    | [data] => ret (data, mkDb (profiles db) rows)
    | _ => throw (BackendError "PGRST116")
    end.

(** A row of the leaderboard query: a log with its embedded profile. *)
Record LogWithProfile := mkJoined {
  j_user_id : string;
  j_pages_read : Z;
  j_profiles : Profile
}.

(** [profiles!inner (...)]: a log comes back with its profile, and a log
    without one does not come back. *)
Definition inner_join (db : Database) (rows : list LogEntry)
    : list LogWithProfile :=
  flat_map (fun r =>
              match find_profile db (user_id r) with
              | Some p => [mkJoined (user_id r) (pages_read r) p]
              | None => []
              end) rows.

Definition first_seen (entry : LogWithProfile) : Entry :=
  mkEntry (j_user_id entry)
    (Some (profile_username (j_profiles entry)))
    (profile_avatar_url (j_profiles entry)) 0 None.

(** [getLeaderboard(limit = 10)]. *)
Definition getLeaderboard (env : Env) (db : Database) (limit : option nat)
    : list Entry :=
  let startDate := formatDateForInput env (getMonthStart env) in
  let data := inner_join db (q_gte_date startDate (reading_logs db)) in
  match data with
  | [] => []
  | _ =>
      let userTotals := aggregate j_user_id j_pages_read first_seen data in
      with_ranks 0
        (firstn (default_arg 10%nat limit)
           (Array_sort by_total_desc userTotals))
  end.

(** [getCurrentMonthLogs(userId)]. *)
Definition getCurrentMonthLogs (env : Env) (db : Database) (uid : string)
    : list LogEntry :=
  let startDate := formatDateForInput env (getMonthStart env) in
  let endDate := getToday env in
  q_order_date_desc
    (q_lte_date endDate (q_gte_date startDate (q_eq_user uid (reading_logs db)))).

(** [deleteReadingLog(logId)]: [.delete().eq('id', logId)].  A delete that
    matches no row is not an error. *)
Definition deleteReadingLog (db : Database) (logId : string) : Result Database :=
  ret (mkDb (profiles db)
         (filter (fun r => negb (String.eqb (entry_id r) logId)) (reading_logs db))).

(** [getUserRank(userId)]; [None] is [undefined]. *)
Definition getUserRank (env : Env) (db : Database) (uid : string) : option Z :=
  let leaderboard := getLeaderboard env db (Some 100%nat) in
  match find (fun entry => String.eqb (userId entry) uid) leaderboard with
  | Some userEntry => rank userEntry
  | None => Some 0
  end.

End Supabase.

(** ** The Appwrite configuration and js/reading-log.js, Appwrite variant *)

Module Appwrite.

(** What the configuration script leaves on [window].  Its
    [const databases = new Databases(client)] is a binding of the script,
    not a property of [window]; the service is exported under the name
    [appwriteDatabases].  A property that was never assigned reads as
    [undefined], which is [None]. *)
Inductive WindowValue :=
| TheClient
| TheAccount
| TheDatabases
| TheStorage
| TheID
| TheQuery
| TheConfig.

Definition window (property : string) : option WindowValue :=
  if String.eqb property "appwriteClient" then Some TheClient
  else if String.eqb property "appwriteAccount" then Some TheAccount
  else if String.eqb property "appwriteDatabases" then Some TheDatabases
  else if String.eqb property "appwriteStorage" then Some TheStorage
  else if String.eqb property "AppwriteID" then Some TheID
  else if String.eqb property "AppwriteQuery" then Some TheQuery
  else if String.eqb property "APPWRITE_CONFIG" then Some TheConfig
  else None.

(** A call [databases.method(...)]: the method of the [Databases] service
    when [databases] is that service, and a [TypeError] when it is
    [undefined] (or anything else, which has no such method). *)
Definition call {A : Type} (databases : option WindowValue) (method : Result A)
    : Result A :=
  match databases with
  | Some TheDatabases => method
  | _ => throw TypeError
  end.

(** The methods of the service, on a collection held as a list of
    documents: [listDocuments] with its queries, [getDocument],
    [createDocument], [updateDocument] and [deleteDocument], the last
    three failing for an id that names no document. *)
Definition listDocuments {Doc : Type} (collection : list Doc)
    (queries : list Doc -> list Doc) : Result (list Doc) :=
  ret (queries collection).

Definition getDocument (collection : list Profile) (id : string) : Result Profile :=
  match find (fun p => String.eqb (profile_id p) id) collection with
  | Some document => ret document
  | None => throw (BackendError "document_not_found")
  end.

Definition createDocument (db : Database) (document : LogEntry)
    : Result (LogEntry * Database) :=
  ret (document, mkDb (profiles db) (reading_logs db ++ [document])).

Definition updateDocument (env : Env) (db : Database) (logId : string)
    (pages : Z) : Result (LogEntry * Database) :=
  let rows := update_by_id logId pages (now env) (reading_logs db) in
  match filter (fun r => String.eqb (entry_id r) logId) rows with
  | response :: _ => ret (response, mkDb (profiles db) rows)
  | [] => throw (BackendError "document_not_found")
  end.

Definition deleteDocument (db : Database) (logId : string) : Result Database :=
  if existsb (fun r => String.eqb (entry_id r) logId) (reading_logs db)
  then ret (mkDb (profiles db)
              (filter (fun r => negb (String.eqb (entry_id r) logId))
                 (reading_logs db)))
  else throw (BackendError "document_not_found").

(** [getLogByDate]: the first listed document, or null; the [catch]
    returns null as well. *)
Definition getLogByDate (db : Database) (userId : string) (logDate : Z)
    : option LogEntry :=
  let databases := window "databases" in
  match call databases
          (listDocuments (reading_logs db)
             (fun rows => q_eq_date logDate (q_eq_user userId rows))) with
  | inr (document :: _) => Some document
  | inr [] => None
  | inl _ => None
  end.

(** [addReadingLog(userId, logDate, pagesRead)]: the two tests, the lookup,
    and [createDocument] with [parseInt(pagesRead)], whose error is logged
    and thrown again.  [other] is what other sessions did between the
    lookup and the creation. *)
Definition addReadingLog (env : Env) (fresh : string)
    (other : Database -> Database) (db : Database)
    (userId : string) (logDate : Z) (pagesRead : Q)
    : Result (LogEntry * Database) :=
  let databases := window "databases" in
  if negb (isDateInRange env logDate 3) then throw (Error MSG_DATE_RANGE)
  else if pages_out_of_bounds pagesRead then throw (Error MSG_PAGES)
  else match getLogByDate db userId logDate with
       | Some _ => throw (Error MSG_EXISTS_PRECHECK)
       | None =>
           match call databases
                   (createDocument (other db)
                      (mkLog fresh userId logDate (parseInt pagesRead) (now env))) with
           | inr response => ret response
           | inl error => throw error
           end
       end.

(** [getUserLogs(userId, limit = 50)]; the [catch] returns the empty
    array. *)
Definition getUserLogs (db : Database) (userId : string) (limit : option nat)
    : list LogEntry :=
  let databases := window "databases" in
  match call databases
          (listDocuments (reading_logs db)
             (fun rows =>
                q_limit (default_arg 50%nat limit)
                  (q_order_date_desc (q_eq_user userId rows)))) with
  | inr documents => documents
  | inl _ => []
  end.

(** [updateReadingLog(logId, pagesRead)]: [updateDocument] with
    [{ pages_read: parseInt(pagesRead) }]; the server stamps [$updatedAt];
    an error is thrown again. *)
Definition updateReadingLog (env : Env) (db : Database)
    (logId : string) (pagesRead : Q) : Result (LogEntry * Database) :=
  let databases := window "databases" in
  if pages_out_of_bounds pagesRead then throw (Error MSG_PAGES)
  else match call databases
               (updateDocument env db logId (parseInt pagesRead)) with
       | inr response => ret response
       | inl error => throw error
       end.

(** [getProfile(userId)] of js/auth.js: the document whose id is the user
    id; failing that, the first document whose [user_id] is (the profile is
    created with both set to the user id); null when that fails too. *)
Definition getProfile (db : Database) (userId : string) : option Profile :=
  let databases := window "databases" in
  match call databases (getDocument (profiles db) userId) with
  | inr document => Some document
  | inl _ =>
      match call databases
              (listDocuments (profiles db)
                 (filter (fun p => String.eqb (profile_id p) userId))) with
      | inr (document :: _) => Some document
      | inr [] => None
      | inl _ => None
      end
  end.

Definition first_seen (log : LogEntry) : Entry :=
  mkEntry (user_id log) None None 0 None.

(** The [for (const entry of leaderboard)] loop that fills in the names. *)
Definition resolve_profile (db : Database) (entry : Entry) : Entry :=
  match getProfile db (userId entry) with
  | Some profile =>
      mkEntry (userId entry) (Some (profile_username profile))
        (profile_avatar_url profile) (entryTotalPages entry) (rank entry)
  | None =>
      mkEntry (userId entry) (Some MSG_UNKNOWN_USER) (avatarUrl entry)
        (entryTotalPages entry) (rank entry)
  end.

(** [getLeaderboard(limit = 10)]: the whole body is inside [try], and the
    [catch] returns the empty array. *)
Definition getLeaderboard (env : Env) (db : Database) (limit : option nat)
    : list Entry :=
  let databases := window "databases" in
  let startDate := formatDateForInput env (getMonthStart env) in
  match call databases
          (listDocuments (reading_logs db)
             (fun rows => q_limit 100 (q_gte_date startDate rows))) with
  | inr logs =>
      let userTotals := aggregate user_id pages_read first_seen logs in
      let leaderboard :=
        firstn (default_arg 10%nat limit) (Array_sort by_total_desc userTotals) in
      with_ranks 0 (map (resolve_profile db) leaderboard)
  | inl _ => []
  end.

(** [deleteReadingLog(logId)]: [deleteDocument], an error thrown again. *)
Definition deleteReadingLog (db : Database) (logId : string) : Result Database :=
  let databases := window "databases" in
  match call databases (deleteDocument db logId) with
  | inr db' => ret db'
  | inl error => throw error
  end.

(** [getUserRank(userId)]; [None] is [undefined]. *)
Definition getUserRank (env : Env) (db : Database) (uid : string) : option Z :=
  let leaderboard := getLeaderboard env db (Some 50%nat) in
  match find (fun entry => String.eqb (userId entry) uid) leaderboard with
  | Some userEntry => rank userEntry
  | None => Some 0
  end.

End Appwrite.

(** ** js/dashboard.js *)

(** [refreshLogs()]: fetch the user's logs with the default limit and
    compute the statistics from what came back.  [getUserLogs] is the one
    of whichever variant of js/reading-log.js the page loads. *)
Definition refreshLogs (getUserLogs : string -> option nat -> list LogEntry)
    (fuel : nat) (env : Env) (currentUserId : string)
    : option (list LogEntry * Stats) :=
  let userLogs := getUserLogs currentUserId None in
  match calculateStats fuel env userLogs with
  | Some stats => Some (userLogs, stats)
  | None => None
  end.

(** ** Notions of the specification *)

(** The sum of the pages of a collection of entries. *)
Definition sum_pages (logs : list LogEntry) : Z :=
  fold_right (fun log s => pages_read log + s) 0 logs.

(** Day [d] has at least one entry. *)
Definition logged (logs : list LogEntry) (d : Z) : bool :=
  existsb (fun log => log_date log =? d) logs.

(** The day the backward walk starts from: today, or yesterday when today
    has no entry. *)
Definition walk_start (env : Env) (logs : list LogEntry) : Z :=
  if logged logs (getToday env) then getToday env else getToday env - 1.

(** The longest streak in the words of the specification: the running
    streak at each date of an ascending list of dates (one more than the
    streak before it when the gap is exactly one day, otherwise 1), and the
    largest running streak over the sorted distinct dates. *)
Fixpoint running_streaks (prev run : Z) (dates : list Z) : list Z :=
  match dates with
  | [] => []
  | d :: rest =>
      let run' := if d - prev =? 1 then run + 1 else 1 in
      run' :: running_streaks d run' rest
  end.

Definition max_list (l : list Z) : Z := fold_right Z.max 0 l.

Definition spec_longestStreak (dates : list Z) : Z :=
  match Array_sort Z.sub (nodup Z.eq_dec dates) with
  | [] => 0
  | d :: rest => max_list (1 :: running_streaks d 1 rest)
  end.

(** [n] is [x] rounded to the nearest integer, a half rounding up. *)
Definition round_half_up (x : Q) (n : Z) : Prop :=
  (inject_Z n - (1 # 2) <= x)%Q /\ (x < inject_Z n + (1 # 2))%Q.

(** The first day of the current month, the entries dated on or after
    it, and the (user, pages) pairs of a list of entries. *)
Definition month_first_day (env : Env) : Z :=
  let '(y, m, _) := civil_from_days (getToday env) in days_from_civil y m 1.

Definition this_month (env : Env) (db : Database) : list LogEntry :=
  filter (fun r => month_first_day env <=? log_date r) (reading_logs db).

Definition user_pages (logs : list LogEntry) : list (string * Z) :=
  map (fun r => (user_id r, pages_read r)) logs.

(** The pages that [uid] has in a list of (user, pages) pairs. *)
Definition pages_of_user (uid : string) (pairs : list (string * Z)) : Z :=
  fold_right (fun up s => if String.eqb (fst up) uid then snd up + s else s)
    0 pairs.

(** [board] is the leaderboard of [pairs] cut at [N]: one entry per user
    and no user twice, [N] entries unless there are fewer users, each with
    the sum of the user's pages, from the largest total down, ranked 1, 2,
    ... by position, and no user left out has more than a user listed. *)
Definition leaderboard_of (pairs : list (string * Z)) (N : nat)
    (board : list Entry) : Prop :=
  NoDup (map userId board) /\
  List.length board
  = Nat.min N (List.length (nodup string_dec (map fst pairs))) /\
  (forall e, In e board ->
             In (userId e) (map fst pairs) /\
             entryTotalPages e = pages_of_user (userId e) pairs) /\
  StronglySorted (fun a b => entryTotalPages b <= entryTotalPages a) board /\
  (forall i e, nth_error board i = Some e -> rank e = Some (Z.of_nat i + 1)) /\
  (forall uid, In uid (map fst pairs) -> ~ In uid (map userId board) ->
               forall e, In e board -> pages_of_user uid pairs <= entryTotalPages e).

(** The state of the aggregation loop after the rows with [pairs]. *)
Definition totals_of (pairs : list (string * Z)) (userTotals : list Entry) : Prop :=
  NoDup (map userId userTotals) /\
  (forall uid, In uid (map userId userTotals) <-> In uid (map fst pairs)) /\
  (forall e, In e userTotals -> entryTotalPages e = pages_of_user (userId e) pairs).

(** The user and the total of a leaderboard object. *)
Definition core (e : Entry) : string * Z := (userId e, entryTotalPages e).

(** What an update may do to a stored entry: id, owner and date stay, and
    an entry with another id stays as it is. *)
Definition kept_but_pages (logId : string) (r r' : LogEntry) : Prop :=
  entry_id r' = entry_id r /\
  user_id r' = user_id r /\
  log_date r' = log_date r /\
  (entry_id r <> logId -> r' = r).

(** What the longest-streak loop holds when it ends. *)
Definition loop_longest (st : Z * Z * option Z) : Z :=
  let '(longestStreak, tempStreak, _) := st in Z.max longestStreak tempStreak.

(** Order by a key, and the logged days at or before a day (the measure
    that bounds the backward walk). *)
Definition key_le {A : Type} (key : A -> Z) (a b : A) : Prop := key a <= key b.

Definition days_upto (s : list Z) (d : Z) : nat :=
  List.length (filter (fun x => x <=? d) s).

(** ** Further functions of js/utils.js and js/dashboard.js *)

(** [getDaysPassedThisMonth()]: [new Date().getDate()]. *)
Definition getDaysPassedThisMonth (env : Env) : Z :=
  let '(_, _, d) := civil_from_days (localDay env (now env)) in d.

(** [formatOrdinal(num)] on an integer.  [suffixes[i]] is [undefined]
    unless [i] is one of 0, 1, 2, 3; [%] takes the sign of the dividend;
    the four suffixes are non-empty strings, hence truthy. *)
Definition suffixes : list string := ["th"; "st"; "nd"; "rd"].

Definition suffix_at (i : Z) : option string :=
  if i <? 0 then None else nth_error suffixes (Z.to_nat i).

Definition js_or (a : option string) (b : option string) : option string :=
  match a with
  | Some s => Some s
  | None => b
  end.

Definition number_to_string (num : Z) : string :=
  DecimalString.NilZero.string_of_int (Z.to_int num).

Definition formatOrdinal (num : Z) : string :=
  let v := Z.rem num 100 in
  let suffix :=
    js_or (suffix_at (Z.rem (v - 20) 10))
      (js_or (suffix_at v) (suffix_at 0)) in
  (number_to_string num ++
   match suffix with
   | Some s => s
   | None => "undefined"
   end)%string.

(** [setupDatePicker()]: the value and the bounds given to the picker. *)
Record DatePicker := mkPicker {
  picker_value : Z;
  picker_max : Z;
  picker_min : Z
}.

Definition setupDatePicker (env : Env) : DatePicker :=
  let today := getToday env in
  let minDate := getDaysAgo env 3 in
  mkPicker today today minDate.

(** [updateProgress()]: the percentage it shows, from the logs that
    [refreshLogs] left in [userLogs]. *)
Definition updateProgress (env : Env) (userLogs : list LogEntry) : Z :=
  let daysPassed := getDaysPassedThisMonth env in
  let daysWithLogs := Z.of_nat (List.length (Set_of (map log_date userLogs))) in
  if 0 <? daysPassed
  then Math_round (js_div daysWithLogs daysPassed * 100)%Q
  else 0.

(** ** Further notions *)

(** At most one entry per user and date. *)
Definition unique_user_date (rows : list LogEntry) : Prop :=
  NoDup (map (fun r => (user_id r, log_date r)) rows).

(** The entries of a user for a date. *)
Definition entries_for (uid : string) (d : Z) (rows : list LogEntry)
    : list LogEntry :=
  filter (fun r => String.eqb (user_id r) uid && (log_date r =? d)) rows.


(** The suffix of an English ordinal. *)
Definition english_suffix (num : Z) : string :=
  if (11 <=? num mod 100) && (num mod 100 <=? 13) then "th"
  else if num mod 10 =? 1 then "st"
  else if num mod 10 =? 2 then "nd"
  else if num mod 10 =? 3 then "rd"
  else "th".

(** The suffix that [formatOrdinal] picks for [v = num % 100]. *)
Definition ordinal_suffix (v : Z) : option string :=
  js_or (suffix_at (Z.rem (v - 20) 10)) (js_or (suffix_at v) (suffix_at 0)).

(** The sum of the totals of a leaderboard. *)
Definition sum_totals (board : list Entry) : Z :=
  fold_right (fun e s => entryTotalPages e + s) 0 board.


(** ** Sample data

    Clocks for the examples: 10:00 local time on 2024-03-15 (day 19797),
    once at UTC+05:30 and once at UTC-05:00. *)
Definition env_ist : Env := mkEnv 1710477000000 19800000.
Definition env_west : Env := mkEnv 1710514800000 (-18000000).

Definition log_on (d pages : Z) : LogEntry :=
  mkLog "log" "reader" d pages 0.

(** A database with one profile and no log, and the same after the
    reader logged ten pages for today. *)
Definition db_fresh : Database :=
  mkDb [mkProfile "reader" "Reader" None] [].
Definition db_logged_today : Database :=
  mkDb [mkProfile "reader" "Reader" None] [mkLog "log" "reader" 19797 10 0].

(** March 2024 begins on day 19783.  Readers A, B and C with 30, 50 and 50
    pages in March, and 500 pages of A from February. *)
Definition db_abc : Database :=
  mkDb [mkProfile "A" "Asha" None; mkProfile "B" "Bala" None;
        mkProfile "C" "Chitra" (Some "c.png")]
    [mkLog "l1" "B" 19790 50 0; mkLog "l2" "A" 19784 10 0;
     mkLog "l3" "C" 19785 20 0; mkLog "l4" "A" 19797 20 0;
     mkLog "l5" "C" 19796 30 0; mkLog "l6" "A" 19780 500 0].

(** A reader with a profile and one without. *)
Definition db_ghost : Database :=
  mkDb [mkProfile "reader" "Reader" None]
    [mkLog "g1" "ghost" 19797 40 0; mkLog "r1" "reader" 19797 10 0].

(** Fifty-one entries of one reader, a page each, on consecutive days
    that end today. *)
Definition db_51_days : Database :=
  mkDb [mkProfile "reader" "Reader" None]
    (map (fun i => mkLog "log" "reader" (19747 + Z.of_nat i) 1 0) (seq 0 51)).

(** An entry from long before the window, next to one of another user. *)
Definition old_entry : LogEntry := mkLog "old" "reader" 19000 10 0.
Definition db_old_entry : Database :=
  mkDb [mkProfile "reader" "Reader" None]
    [mkLog "other" "someone" 19797 7 0; old_entry].

(** Today and the two days before; yesterday and the day before; the day
    before yesterday alone; and four entries of which two share a date. *)
Definition logs_three_days : list LogEntry :=
  [log_on 19797 10; log_on 19796 20; log_on 19795 30].
Definition logs_two_days : list LogEntry :=
  [log_on 19796 20; log_on 19795 30].
Definition logs_one_old_day : list LogEntry := [log_on 19795 30].
Definition logs_shared_date : list LogEntry :=
  [log_on 19796 10; log_on 19795 20; log_on 19795 25; log_on 19794 30].

(** * Proofs *)

(** ** Numbers *)

Lemma Math_round_bounds (x : Q) :
  (inject_Z (Math_round x) - (1 # 2) <= x)%Q /\
  (x < inject_Z (Math_round x) + (1 # 2))%Q.
Proof.
  unfold Math_round.
  pose proof (Qfloor_le (x + (1 # 2))) as Hle.
  pose proof (Qlt_floor (x + (1 # 2))) as Hlt.
  rewrite inject_Z_plus in Hlt.
  change (inject_Z 1) with 1%Q in Hlt.
  split; lra.
Qed.

Lemma Math_round_unique (x : Q) (n : Z) :
  (inject_Z n - (1 # 2) <= x)%Q ->
  (x < inject_Z n + (1 # 2))%Q ->
  Math_round x = n.
Proof.
  intros Hlo Hhi.
  destruct (Math_round_bounds x) as [Blo Bhi].
  assert (H1 : (inject_Z (Math_round x) < inject_Z (n + 1))%Q).
  { rewrite inject_Z_plus. change (inject_Z 1) with 1%Q. lra. }
  assert (H2 : (inject_Z n < inject_Z (Math_round x + 1))%Q).
  { rewrite inject_Z_plus. change (inject_Z 1) with 1%Q. lra. }
  rewrite <- Zlt_Qlt in H1, H2. lia.
Qed.

Lemma js_div_exact (k d : Z) : 0 < d -> (js_div (k * d) d == inject_Z k)%Q.
Proof.
  intros Hd. unfold js_div. rewrite inject_Z_mult.
  assert (Hnz : ~ (inject_Z d == 0)%Q).
  { intros H. unfold Qeq in H. simpl in H. lia. }
  field. exact Hnz.
Qed.

Lemma Math_round_exact (k d : Z) : 0 < d -> Math_round (js_div (k * d) d) = k.
Proof.
  intros Hd. apply Math_round_unique; rewrite (js_div_exact k d Hd); lra.
Qed.

Lemma Qlt_bool_iff (a b : Q) : Qlt_bool a b = true <-> (a < b)%Q.
Proof.
  unfold Qlt_bool. rewrite negb_true_iff.
  split; intros H.
  - apply Qnot_le_lt. intros Hle. apply Qle_bool_iff in Hle. congruence.
  - destruct (Qle_bool b a) eqn:E; [| reflexivity].
    apply Qle_bool_iff in E. exfalso. apply (Qlt_not_le _ _ H E).
Qed.

Lemma pages_out_of_bounds_iff (p : Q) :
  pages_out_of_bounds p = true <-> (p < 1)%Q \/ (1000 < p)%Q.
Proof.
  unfold pages_out_of_bounds.
  rewrite orb_true_iff, !Qlt_bool_iff. reflexivity.
Qed.

(** ** Dates *)

Lemma MS_PER_DAY_pos : 0 < MS_PER_DAY.
Proof. reflexivity. Qed.

Lemma localDay_setHours0 (env : Env) (t : Z) :
  localDay env (setHours0 env t) = localDay env t.
Proof.
  unfold setHours0, localDay.
  replace (((t + tzOffset env) / MS_PER_DAY) * MS_PER_DAY - tzOffset env + tzOffset env)
    with (((t + tzOffset env) / MS_PER_DAY) * MS_PER_DAY) by lia.
  apply Z.div_mul. pose proof MS_PER_DAY_pos. lia.
Qed.

Lemma localDay_setDate_back (env : Env) (t n : Z) :
  localDay env (setDate_back t n) = localDay env t - n.
Proof.
  unfold setDate_back, localDay.
  replace (t - n * MS_PER_DAY + tzOffset env)
    with (t + tzOffset env + (- n) * MS_PER_DAY) by lia.
  rewrite Z.div_add by (pose proof MS_PER_DAY_pos; lia). lia.
Qed.

(** Midnight-normalised parse of a date string: the day the string names,
    moved by the whole days that the offset from UTC spans. *)
Lemma setHours0_Date_of_string (env : Env) (d : Z) :
  setHours0 env (Date_of_string d) =
  (d + tzOffset env / MS_PER_DAY) * MS_PER_DAY - tzOffset env.
Proof.
  unfold setHours0, localDay, Date_of_string.
  rewrite Z.add_comm, Z.div_add by (pose proof MS_PER_DAY_pos; lia).
  f_equal. f_equal. lia.
Qed.

(** ** Sorting *)

Section SortFacts.
Context {A : Type}.
Variable cmp : A -> A -> Z.

Lemma sort_insert_perm (x : A) (l : list A) :
  Permutation (sort_insert cmp x l) (x :: l).
Proof.
  induction l as [| y l IH]; simpl.
  - apply Permutation_refl.
  - destruct (cmp y x <? 0).
    + eapply perm_trans; [apply perm_skip, IH | apply perm_swap].
    + apply Permutation_refl.
Qed.

Lemma Array_sort_perm (l : list A) : Permutation (Array_sort cmp l) l.
Proof.
  induction l as [| x l IH]; simpl.
  - apply perm_nil.
  - eapply perm_trans; [apply sort_insert_perm | apply perm_skip, IH].
Qed.

Lemma Array_sort_length (l : list A) :
  List.length (Array_sort cmp l) = List.length l.
Proof. apply Permutation_length, Array_sort_perm. Qed.

Lemma Array_sort_In (l : list A) (x : A) : In x (Array_sort cmp l) <-> In x l.
Proof.
  split; apply Permutation_in;
    [apply Array_sort_perm | apply Permutation_sym, Array_sort_perm].
Qed.

(** A comparator that is the difference of a key sorts by that key. *)
Variable key : A -> Z.
Hypothesis cmp_key : forall a b, cmp a b = key a - key b.

Lemma sort_insert_sorted (x : A) (l : list A) :
  StronglySorted (key_le key) l -> StronglySorted (key_le key) (sort_insert cmp x l).
Proof.
  induction 1 as [| y l Hs IH Hy]; simpl.
  - repeat constructor.
  - rewrite cmp_key. destruct (key y - key x <? 0) eqn:E.
    + apply Z.ltb_lt in E. constructor; [exact IH |].
      rewrite Forall_forall. intros z Hz.
      apply (Permutation_in _ (sort_insert_perm x l)) in Hz.
      destruct Hz as [<- | Hz]; [unfold key_le; lia |].
      rewrite Forall_forall in Hy. exact (Hy z Hz).
    + apply Z.ltb_ge in E. constructor; [constructor; assumption |].
      constructor; [unfold key_le; lia |].
      rewrite Forall_forall in *. intros z Hz.
      specialize (Hy z Hz). unfold key_le in *. lia.
Qed.

Lemma Array_sort_sorted (l : list A) :
  StronglySorted (key_le key) (Array_sort cmp l).
Proof.
  induction l as [| x l IH]; simpl.
  - constructor.
  - apply sort_insert_sorted, IH.
Qed.
End SortFacts.

(** Sorting commutes with a map that respects the comparator's tests. *)
Lemma Array_sort_map {A B : Type} (cmpA : A -> A -> Z) (cmpB : B -> B -> Z)
    (f : A -> B) :
  (forall a b, (cmpA a b <? 0) = (cmpB (f a) (f b) <? 0)) ->
  forall l, map f (Array_sort cmpA l) = Array_sort cmpB (map f l).
Proof.
  intros Hcmp l. induction l as [| x l IH]; simpl; [reflexivity |].
  rewrite <- IH. generalize (Array_sort cmpA l). intros s.
  induction s as [| y s IHs]; simpl; [reflexivity |].
  rewrite <- Hcmp. destruct (cmpA y x <? 0); simpl; [rewrite IHs |]; reflexivity.
Qed.

(** In a sorted list, what [firstn] keeps is ahead of what it leaves. *)
Lemma firstn_sorted_ahead {A : Type} (R : A -> A -> Prop) (n : nat) (l : list A) :
  StronglySorted R l ->
  forall x y, In x (firstn n l) -> In y (skipn n l) -> R x y.
Proof.
  intros Hs. revert n. induction Hs as [| a l Hs IH Ha]; intros n x y Hx Hy.
  - destruct n; contradiction.
  - destruct n as [| n]; simpl in *; [contradiction |].
    destruct Hx as [<- | Hx].
    + rewrite Forall_forall in Ha. apply Ha.
      rewrite <- (firstn_skipn n l). apply in_or_app. right. exact Hy.
    + exact (IH n x y Hx Hy).
Qed.

Lemma firstn_incl {A : Type} (n : nat) (l : list A) (x : A) :
  In x (firstn n l) -> In x l.
Proof.
  intros H. rewrite <- (firstn_skipn n l). apply in_or_app. left. exact H.
Qed.

Lemma firstn_StronglySorted {A : Type} (R : A -> A -> Prop) (n : nat) (l : list A) :
  StronglySorted R l -> StronglySorted R (firstn n l).
Proof.
  intros Hs. revert n. induction Hs as [| a l Hs IH Ha]; intros [| n]; simpl;
    try constructor.
  - apply IH.
  - rewrite Forall_forall in *. intros x Hx. apply Ha.
    rewrite <- (firstn_skipn n l). apply in_or_app. left. exact Hx.
Qed.

(** ** Sets of dates *)

Lemma Set_has_In (s : list Z) (x : Z) : Set_has s x = true <-> In x s.
Proof.
  unfold Set_has. rewrite existsb_exists. split.
  - intros [y [Hy E]]. apply Z.eqb_eq in E. subst. exact Hy.
  - intros H. exists x. split; [exact H | apply Z.eqb_refl].
Qed.

Lemma Set_of_In_from (l s : list Z) (x : Z) :
  In x (fold_left Set_add l s) <-> In x s \/ In x l.
Proof.
  revert s. induction l as [| y l IH]; intros s; simpl.
  - tauto.
  - rewrite IH. unfold Set_add. destruct (Set_has s y) eqn:E.
    + apply Set_has_In in E. split; [tauto |].
      intros [H | [<- | H]]; tauto.
    + rewrite in_app_iff. simpl. tauto.
Qed.

Lemma Set_of_In (l : list Z) (x : Z) : In x (Set_of l) <-> In x l.
Proof. unfold Set_of. rewrite Set_of_In_from. simpl. tauto. Qed.

Lemma Set_of_length_from (l s : list Z) :
  (List.length (fold_left Set_add l s) <= List.length s + List.length l)%nat.
Proof.
  revert s. induction l as [| y l IH]; intros s; simpl; [lia |].
  specialize (IH (Set_add s y)). unfold Set_add in *.
  destruct (Set_has s y); [lia |].
  rewrite length_app in IH. simpl in IH. lia.
Qed.

Lemma Set_of_length (l : list Z) : (List.length (Set_of l) <= List.length l)%nat.
Proof. apply (Set_of_length_from l []). Qed.

Lemma logged_In (logs : list LogEntry) (d : Z) :
  logged logs d = true <-> In d (map log_date logs).
Proof.
  unfold logged. rewrite existsb_exists, in_map_iff. split.
  - intros [e [He E]]. apply Z.eqb_eq in E. exists e. tauto.
  - intros [e [E He]]. exists e. split; [exact He | apply Z.eqb_eq, E].
Qed.

(** The set that [calculateStreaks] builds holds exactly the logged days. *)
Lemma loggedDates_has (logs : list LogEntry) (d : Z) :
  Set_has (Set_of (map log_date (Array_sort by_log_date logs))) d = logged logs d.
Proof.
  apply eq_true_iff_eq.
  rewrite Set_has_In, Set_of_In, logged_In, !in_map_iff.
  split; intros [e [E He]]; exists e; (split; [exact E |]);
    apply (Array_sort_In by_log_date logs e); exact He.
Qed.

(** ** The current streak *)

(** Stepping one day back leaves fewer logged days at or before the day
    looked at, strictly fewer when that day is logged. *)
Lemma days_upto_shrink (s : list Z) (d : Z) :
  (days_upto s (d - 1) <= days_upto s d)%nat /\
  (Set_has s d = true -> (days_upto s (d - 1) < days_upto s d)%nat).
Proof.
  unfold days_upto.
  induction s as [| x s [IHle IHlt]]; simpl.
  - split; [lia | discriminate].
  - unfold Set_has in *. simpl.
    destruct (Z.leb_spec x (d - 1)); destruct (Z.leb_spec x d);
      destruct (Z.eqb_spec d x); simpl; try lia;
      (split; [lia | intros Hin; try specialize (IHlt Hin); lia]).
Qed.

Lemma streak_loop_spec (env : Env) (s : list Z) :
  forall (fuel : nat) (t c : Z),
    (days_upto s (localDay env t) < fuel)%nat ->
    exists n,
      0 <= n /\
      streak_loop fuel env s t c = Some (c + n) /\
      (forall k, 0 <= k < n -> Set_has s (localDay env t - k) = true) /\
      Set_has s (localDay env t - n) = false.
Proof.
  induction fuel as [| fuel IH]; intros t c Hfuel; [lia |].
  simpl. unfold formatDateForInput.
  destruct (Set_has s (localDay env t)) eqn:Hhas.
  - destruct (days_upto_shrink s (localDay env t)) as [_ Hlt].
    specialize (Hlt Hhas).
    destruct (IH (setDate_back t 1) (c + 1)) as [n [Hn [Hrun [Hall Hstop]]]].
    { rewrite localDay_setDate_back. lia. }
    rewrite localDay_setDate_back in Hall, Hstop.
    exists (n + 1). repeat split.
    + lia.
    + rewrite Hrun. f_equal. lia.
    + intros k Hk. destruct (Z.eq_dec k 0) as [-> | Hk0].
      * rewrite Z.sub_0_r. exact Hhas.
      * replace (localDay env t - k) with (localDay env t - 1 - (k - 1)) by lia.
        apply Hall. lia.
    + replace (localDay env t - (n + 1)) with (localDay env t - 1 - n) by lia.
      exact Hstop.
  - exists 0. rewrite Z.add_0_r, Z.sub_0_r. repeat split; [lia | | exact Hhas].
    intros k Hk. lia.
Qed.

(** What a run from [start] counts is fixed by the logged days. *)
Lemma streak_count_unique (logs : list LogEntry) (start n m : Z) :
  0 <= n -> 0 <= m ->
  (forall k, 0 <= k < n -> logged logs (start - k) = true) ->
  logged logs (start - n) = false ->
  (forall k, 0 <= k < m -> logged logs (start - k) = true) ->
  logged logs (start - m) = false ->
  n = m.
Proof.
  intros Hn Hm Hall1 Hstop1 Hall2 Hstop2.
  destruct (Z.lt_trichotomy n m) as [H | [H | H]]; [| exact H |].
  - specialize (Hall2 n ltac:(lia)). congruence.
  - specialize (Hall1 m ltac:(lia)). congruence.
Qed.

(** With more fuel than entries, [calculateStreaks] returns, and its
    current streak is the run of logged days back from [walk_start]. *)
Lemma calculateStreaks_returns (fuel : nat) (env : Env) (logs : list LogEntry) :
  (List.length logs < fuel)%nat ->
  exists cur longest,
    calculateStreaks fuel env logs = Some (cur, longest) /\
    0 <= cur /\
    (forall k, 0 <= k < cur -> logged logs (walk_start env logs - k) = true) /\
    logged logs (walk_start env logs - cur) = false.
Proof.
  intros Hfuel. destruct logs as [| e logs'].
  - exists 0, 0. simpl. repeat split; [lia | intros; lia].
  - unfold calculateStreaks. set (logs := e :: logs') in *. clearbody logs.
    set (s := Set_of (map log_date (Array_sort by_log_date logs))).
    assert (Hs : forall d, Set_has s d = logged logs d)
      by (intros d; apply loggedDates_has).
    unfold formatDateForInput. rewrite localDay_setHours0.
    set (t := if negb (Set_has s (localDay env (now env)))
              then setDate_back (setHours0 env (now env)) 1
              else setHours0 env (now env)).
    assert (Ht : localDay env t = walk_start env logs).
    { unfold t, walk_start, getToday, formatDateForInput. rewrite Hs.
      destruct (logged logs (localDay env (now env))); simpl.
      - apply localDay_setHours0.
      - rewrite localDay_setDate_back, localDay_setHours0. reflexivity. }
    destruct (streak_loop_spec env s fuel t 0) as [n [Hn [Hrun [Hall Hstop]]]].
    { unfold days_upto. eapply Nat.le_lt_trans; [apply filter_length_le |].
      eapply Nat.le_lt_trans; [apply Set_of_length |].
      rewrite length_map, Array_sort_length. exact Hfuel. }
    rewrite Hrun. simpl.
    destruct (fold_left (longest_step env) (Array_sort by_log_date logs) (0, 0, None))
      as [[longest temp] prev].
    exists n, (Z.max longest temp). rewrite <- Ht.
    repeat split; [exact Hn | |].
    + intros k Hk. rewrite <- Hs. apply Hall, Hk.
    + rewrite <- Hs. exact Hstop.
Qed.

(** ** Statistics *)

Lemma fold_left_sum_pages (logs : list LogEntry) (a : Z) :
  fold_left (fun sum log => sum + pages_read log) logs a = a + sum_pages logs.
Proof.
  revert a. induction logs as [| e logs IH]; intros a; simpl; [lia |].
  rewrite IH. lia.
Qed.

(** With more fuel than entries, [calculateStats] returns; the total is
    the sum of the pages, the days are the number of entries, and the
    average is 0 for no entry and the rounded quotient otherwise. *)
Lemma calculateStats_returns (fuel : nat) (env : Env) (logs : list LogEntry) :
  (List.length logs < fuel)%nat ->
  exists stats,
    calculateStats fuel env logs = Some stats /\
    totalPages stats = sum_pages logs /\
    daysLogged stats = Z.of_nat (List.length logs) /\
    avgPages stats
    = match logs with
      | [] => 0
      | _ => Math_round (js_div (sum_pages logs) (Z.of_nat (List.length logs)))
      end.
Proof.
  intros Hfuel.
  destruct (calculateStreaks_returns fuel env logs Hfuel)
    as [cur [longest [Hst _]]].
  destruct logs as [| e logs'].
  - exists (mkStats 0 0 0 0 0). simpl. repeat split.
  - eexists. split; [unfold calculateStats; rewrite Hst; reflexivity |].
    cbn [totalPages daysLogged avgPages].
    rewrite fold_left_sum_pages, Z.add_0_l. repeat split.
Qed.

(** C1.  [calculateStats] returns, for a non-empty collection, an
    [avgPages] that is [totalPages / daysLogged] rounded to the nearest
    integer with a half rounding up, where [totalPages] is the sum of the
    pages and [daysLogged] the number of entries; for the empty collection
    it returns [avgPages = 0] without dividing. *)
Theorem calculateStats_avgPages (fuel : nat) (env : Env) (logs : list LogEntry) :
  (List.length logs < fuel)%nat ->
  exists stats,
    calculateStats fuel env logs = Some stats /\
    totalPages stats = sum_pages logs /\
    daysLogged stats = Z.of_nat (List.length logs) /\
    (logs = [] -> avgPages stats = 0) /\
    (logs <> [] ->
     round_half_up
       (inject_Z (sum_pages logs) / inject_Z (Z.of_nat (List.length logs)))%Q
       (avgPages stats)).
Proof.
  intros Hfuel.
  destruct (calculateStats_returns fuel env logs Hfuel)
    as [stats [Hst [Htotal [Hdays Havg]]]].
  exists stats. repeat (split; [assumption |]). split.
  - intros ->. exact Havg.
  - intros Hne. destruct logs as [| e logs']; [contradiction |].
    rewrite Havg. apply Math_round_bounds.
Qed.

Lemma calculateStats_avgPages_witness :
  (List.length [log_on 19796 2; log_on 19797 3] < 3)%nat /\
  exists stats,
    calculateStats 3 env_ist [log_on 19796 2; log_on 19797 3] = Some stats /\
    totalPages stats = sum_pages [log_on 19796 2; log_on 19797 3] /\
    daysLogged stats = Z.of_nat (List.length [log_on 19796 2; log_on 19797 3]) /\
    ([log_on 19796 2; log_on 19797 3] = [] -> avgPages stats = 0) /\
    ([log_on 19796 2; log_on 19797 3] <> [] ->
     round_half_up
       (inject_Z (sum_pages [log_on 19796 2; log_on 19797 3])
        / inject_Z (Z.of_nat (List.length [log_on 19796 2; log_on 19797 3])))%Q
       (avgPages stats)).
Proof.
  split; [simpl; lia |].
  apply (calculateStats_avgPages 3 env_ist [log_on 19796 2; log_on 19797 3]).
  simpl; lia.
Defined.

(** Five pages over two days is 2.5 a day, which rounds up to 3. *)
Example calculateStats_half_up :
  calculateStats 3 env_ist [log_on 19796 2; log_on 19797 3]
  = Some (mkStats 5 2 3 2 2).
Proof. reflexivity. Qed.

Ltac logged_days Hset :=
  match goal with
  | |- logged ?logs ?d = true => apply Hset; lia
  | |- logged ?logs ?d = false =>
      destruct (logged logs d) eqn:Hd; [apply Hset in Hd; lia | reflexivity]
  end.

(** C2.  [calculateStreaks] returns, and its current streak is the number
    of consecutive days with an entry counted back from today, or from
    yesterday when today has none: every day of the run has an entry and
    the day before the run has none.  Entries on today and the two days
    before give 3, on yesterday and the day before give 2, and on the day
    before yesterday alone give 0. *)
Theorem calculateStreaks_currentStreak (fuel : nat) (env : Env)
    (logs : list LogEntry) :
  (List.length logs < fuel)%nat ->
  exists cur longest,
    calculateStreaks fuel env logs = Some (cur, longest) /\
    0 <= cur /\
    (forall k, 0 <= k < cur -> logged logs (walk_start env logs - k) = true) /\
    logged logs (walk_start env logs - cur) = false /\
    ((forall d, logged logs d = true <->
                d = getToday env \/ d = getToday env - 1 \/ d = getToday env - 2) ->
     cur = 3) /\
    ((forall d, logged logs d = true <->
                d = getToday env - 1 \/ d = getToday env - 2) ->
     cur = 2) /\
    ((forall d, logged logs d = true <-> d = getToday env - 2) -> cur = 0).
Proof.
  intros Hfuel.
  destruct (calculateStreaks_returns fuel env logs Hfuel)
    as [cur [longest [Hst [Hcur [Hall Hstop]]]]].
  exists cur, longest.
  repeat (split; [assumption |]).
  repeat split; intros Hset.
  - assert (Hstart : walk_start env logs = getToday env).
    { unfold walk_start.
      replace (logged logs (getToday env)) with true
        by (symmetry; logged_days Hset). reflexivity. }
    rewrite Hstart in *.
    apply (streak_count_unique logs (getToday env)); try assumption; try lia.
    + intros k Hk. logged_days Hset.
    + logged_days Hset.
  - assert (Hstart : walk_start env logs = getToday env - 1).
    { unfold walk_start.
      replace (logged logs (getToday env)) with false
        by (symmetry; logged_days Hset). reflexivity. }
    rewrite Hstart in *.
    apply (streak_count_unique logs (getToday env - 1)); try assumption; try lia.
    + intros k Hk. logged_days Hset.
    + logged_days Hset.
  - assert (Hstart : walk_start env logs = getToday env - 1).
    { unfold walk_start.
      replace (logged logs (getToday env)) with false
        by (symmetry; logged_days Hset). reflexivity. }
    rewrite Hstart in *.
    apply (streak_count_unique logs (getToday env - 1)); try assumption; try lia.
    logged_days Hset.
Qed.

Lemma calculateStreaks_currentStreak_witness :
  (List.length logs_three_days < 4)%nat /\
  exists cur longest,
    calculateStreaks 4 env_ist logs_three_days = Some (cur, longest) /\
    0 <= cur /\
    (forall k, 0 <= k < cur ->
               logged logs_three_days (walk_start env_ist logs_three_days - k) = true) /\
    logged logs_three_days (walk_start env_ist logs_three_days - cur) = false /\
    ((forall d, logged logs_three_days d = true <->
                d = getToday env_ist \/ d = getToday env_ist - 1
                \/ d = getToday env_ist - 2) ->
     cur = 3) /\
    ((forall d, logged logs_three_days d = true <->
                d = getToday env_ist - 1 \/ d = getToday env_ist - 2) ->
     cur = 2) /\
    ((forall d, logged logs_three_days d = true <-> d = getToday env_ist - 2) ->
     cur = 0).
Proof.
  split; [simpl; lia |].
  apply (calculateStreaks_currentStreak 4 env_ist logs_three_days).
  simpl; lia.
Defined.

Example currentStreak_three_days :
  calculateStreaks 4 env_ist logs_three_days = Some (3, 3).
Proof. reflexivity. Qed.

Example currentStreak_today_missing :
  calculateStreaks 3 env_ist logs_two_days = Some (2, 2).
Proof. reflexivity. Qed.

Example currentStreak_two_days_missing :
  calculateStreaks 2 env_ist logs_one_old_day = Some (0, 1).
Proof. reflexivity. Qed.

(** ** The longest streak *)

Lemma dayDiff_days (env : Env) (d p : Z) :
  Math_round
    (js_div (setHours0 env (Date_of_string d) - setHours0 env (Date_of_string p))
       MS_PER_DAY)
  = d - p.
Proof.
  rewrite !setHours0_Date_of_string.
  replace ((d + tzOffset env / MS_PER_DAY) * MS_PER_DAY - tzOffset env
           - ((p + tzOffset env / MS_PER_DAY) * MS_PER_DAY - tzOffset env))
    with ((d - p) * MS_PER_DAY) by lia.
  apply Math_round_exact, MS_PER_DAY_pos.
Qed.

Lemma max_list_nonneg (l : list Z) : 0 <= max_list l.
Proof. induction l; simpl; lia. Qed.

(** The loop keeps the longest streak only when a run ends, and the
    running streak grows inside a run, so at the end the larger of the two
    is the largest running streak seen. *)
Lemma longest_loop_scan (env : Env) (logs : list LogEntry) :
  forall longestStreak tempStreak prev,
    0 <= tempStreak ->
    loop_longest
      (fold_left (longest_step env) logs
         (longestStreak, tempStreak, Some (setHours0 env (Date_of_string prev))))
    = Z.max (Z.max longestStreak tempStreak)
        (max_list (running_streaks prev tempStreak (map log_date logs))).
Proof.
  induction logs as [| e logs IH]; intros L T p HT.
  - simpl. lia.
  - cbn [fold_left map running_streaks]. unfold longest_step at 2.
    rewrite dayDiff_days.
    destruct (log_date e - p =? 1).
    + rewrite IH by lia. cbn [max_list fold_right].
      fold (max_list (running_streaks (log_date e) (T + 1) (map log_date logs))).
      lia.
    + rewrite IH by lia. cbn [max_list fold_right].
      fold (max_list (running_streaks (log_date e) 1 (map log_date logs))).
      lia.
Qed.

Lemma sorted_dates (logs : list LogEntry) :
  map log_date (Array_sort by_log_date logs) = Array_sort Z.sub (map log_date logs).
Proof.
  apply Array_sort_map. intros a b.
  unfold by_log_date, Date_of_string, MS_PER_DAY.
  destruct (Z.ltb_spec (log_date a - log_date b) 0);
    [apply Z.ltb_lt | apply Z.ltb_ge]; lia.
Qed.

(** The longest streak of the code: the scan of the specification over
    the sorted dates of the entries, a date that occurs twice included. *)
Lemma calculateStreaks_longest_scan (fuel : nat) (env : Env) (logs : list LogEntry) :
  (List.length logs < fuel)%nat ->
  exists cur,
    calculateStreaks fuel env logs
    = Some (cur,
            match Array_sort Z.sub (map log_date logs) with
            | [] => 0
            | d :: rest => max_list (1 :: running_streaks d 1 rest)
            end).
Proof.
  intros Hfuel.
  destruct (calculateStreaks_returns fuel env logs Hfuel)
    as [cur [longest [Hst _]]].
  exists cur. rewrite Hst. f_equal. f_equal.
  destruct logs as [| e logs']; [simpl in *; congruence |].
  unfold calculateStreaks in Hst. set (logs := e :: logs') in *. clearbody logs.
  destruct (streak_loop fuel env _ _ 0); [| discriminate].
  rewrite <- sorted_dates.
  destruct (Array_sort by_log_date logs) as [| e0 sorted].
  - simpl in Hst. injection Hst as _ <-. reflexivity.
  - cbn [fold_left] in Hst. unfold longest_step at 2 in Hst.
    pose proof (longest_loop_scan env sorted 0 1 (log_date e0) ltac:(lia)) as Hscan.
    destruct (fold_left (longest_step env) sorted
                (0, 1, Some (setHours0 env (Date_of_string (log_date e0)))))
      as [[L T] prev].
    injection Hst as _ <-. unfold loop_longest in Hscan. rewrite Hscan.
    cbn [map max_list fold_right].
    fold (max_list (running_streaks (log_date e0) 1 (map log_date sorted))).
    pose proof (max_list_nonneg (running_streaks (log_date e0) 1 (map log_date sorted))).
    lia.
Qed.



(** What the hypothesis on the dates is for.  The loop scans the sorted
    entries, not the set of their dates: were two entries to share a date,
    the sorted entries would give the gaps 1, 0, 1, the gap of 0 would
    reset the running streak, and the loop would return 2 where the scan
    over the three distinct dates gives 3. *)
Example longestStreak_shared_date :
  calculateStreaks 5 env_ist logs_shared_date = Some (3, 2) /\
  spec_longestStreak (map log_date logs_shared_date) = 3.
Proof. split; reflexivity. Qed.

Example longestStreak_isolated_day :
  calculateStreaks 5 env_ist
    [log_on 19780 5; log_on 19781 5; log_on 19782 5; log_on 19786 5]
  = Some (0, 3).
Proof. reflexivity. Qed.

(** ** The date window *)

(** What [isDateInRange] tests: the day of the string, moved by the whole
    days that the offset from UTC spans, lies in the window. *)
Lemma isDateInRange_shifted (env : Env) (d n : Z) :
  isDateInRange env d n = true <->
  getToday env - n <= d + tzOffset env / MS_PER_DAY <= getToday env.
Proof.
  unfold isDateInRange, getToday, formatDateForInput.
  rewrite setHours0_Date_of_string.
  unfold setDate_back, setHours0.
  rewrite andb_true_iff, !Z.leb_le.
  pose proof MS_PER_DAY_pos. nia.
Qed.

(** At UTC and east of it the window is the one the documentation names. *)
Lemma isDateInRange_east_of_UTC (env : Env) (d n : Z) :
  0 <= tzOffset env < MS_PER_DAY ->
  (isDateInRange env d n = true <-> getToday env - n <= d <= getToday env).
Proof.
  intros Htz. rewrite isDateInRange_shifted.
  rewrite (Z.div_small _ _ Htz). lia.
Qed.

(** West of UTC the window is a day late. *)
Lemma isDateInRange_west_of_UTC (env : Env) (d n : Z) :
  - MS_PER_DAY <= tzOffset env < 0 ->
  (isDateInRange env d n = true <->
   getToday env - n + 1 <= d <= getToday env + 1).
Proof.
  intros Htz. rewrite isDateInRange_shifted.
  assert (E : tzOffset env / MS_PER_DAY = -1).
  { symmetry. apply (Z.div_unique _ _ _ (tzOffset env + MS_PER_DAY)); lia. }
  rewrite E. lia.
Qed.

(** [getDaysAgo], which bounds the date picker, counts local days and is
    right in every zone. *)
Lemma getDaysAgo_local (env : Env) (n : Z) : getDaysAgo env n = getToday env - n.
Proof. unfold getDaysAgo, getToday, formatDateForInput. apply localDay_setDate_back. Qed.

(** C4, at the input where the code departs from it.  At 10:00 on
    2024-03-15 in a browser at UTC-05:00, [isDateInRange(d, 3)] accepts
    tomorrow and rejects the day three days ago: the date string is parsed
    as midnight UTC, which is still the evening before in local time, and
    [setHours(0, 0, 0, 0)] then moves it to the local midnight of the day
    before. *)
Theorem isDateInRange_utc_minus_5 :
  getToday env_west = 19797 /\
  isDateInRange env_west (19797 + 1) 3 = true /\
  isDateInRange env_west (19797 - 3) 3 = false /\
  isDateInRange env_west (19797 - 2) 3 = true /\
  isDateInRange env_west (19797 + 2) 3 = false.
Proof. repeat split. Qed.

Example isDateInRange_ist :
  map (fun d => isDateInRange env_ist d 3)
    [19797 - 4; 19797 - 3; 19797 - 2; 19797 - 1; 19797; 19797 + 1]
  = [false; true; true; true; true; false].
Proof. reflexivity. Qed.

(** ** Creating an entry *)

Lemma is_integer_inject_Z (n : Z) : is_integer (inject_Z n) = true.
Proof. unfold is_integer. rewrite Qfloor_Z. apply Qeq_bool_iff. reflexivity. Qed.

Lemma pages_in_bounds (p : Q) :
  (1 <= p)%Q -> (p <= 1000)%Q -> pages_out_of_bounds p = false.
Proof.
  intros Hlo Hhi. destruct (pages_out_of_bounds p) eqn:E; [| reflexivity].
  apply pages_out_of_bounds_iff in E. lra.
Qed.

Lemma pages_in_bounds_Z (n : Z) :
  1 <= n <= 1000 -> pages_out_of_bounds (inject_Z n) = false.
Proof.
  intros [Hlo Hhi]. apply pages_in_bounds.
  - change 1%Q with (inject_Z 1). rewrite <- Zle_Qle. exact Hlo.
  - change 1000%Q with (inject_Z 1000). rewrite <- Zle_Qle. exact Hhi.
Qed.

Ltac unfold_messages :=
  cbv [throw ret MSG_DATE_RANGE MSG_PAGES MSG_EXISTS_PRECHECK MSG_EXISTS_STORAGE] in *.

(** The page-count error comes out exactly when the date passes and the
    page count is below 1 or above 1000. *)
Lemma Supabase_addReadingLog_pages_error env fresh other db userId logDate p :
  Supabase.addReadingLog env fresh other db userId logDate p = throw (Error MSG_PAGES)
  <-> isDateInRange env logDate 3 = true /\ pages_out_of_bounds p = true.
Proof.
  unfold Supabase.addReadingLog.
  destruct (isDateInRange env logDate 3); simpl;
    [| split; [unfold_messages; discriminate | intros [? _]; discriminate]].
  destruct (pages_out_of_bounds p); [tauto |].
  split; [| intros [_ ?]; discriminate].
  destruct (Supabase.getLogByDate db userId logDate);
    [unfold_messages; discriminate |].
  destruct (Supabase.insert_log env fresh (other db) userId logDate p) as [code | [d db']];
    [destruct (String.eqb code "23505") |]; unfold_messages; discriminate.
Qed.

Lemma Appwrite_addReadingLog_pages_error env fresh other db userId logDate p :
  Appwrite.addReadingLog env fresh other db userId logDate p = throw (Error MSG_PAGES)
  <-> isDateInRange env logDate 3 = true /\ pages_out_of_bounds p = true.
Proof.
  unfold Appwrite.addReadingLog.
  destruct (isDateInRange env logDate 3); simpl;
    [| split; [unfold_messages; discriminate | intros [? _]; discriminate]].
  destruct (pages_out_of_bounds p); [tauto |].
  split; [| intros [_ ?]; discriminate].
  destruct (Appwrite.getLogByDate db userId logDate); unfold_messages; discriminate.
Qed.

(** C5, as the code has it.  In both variants [addReadingLog] throws a
    validation error whenever [pagesRead] is below 1 or above 1000: the
    date-range message when the date is outside the window, and otherwise
    the page-count message.  A [pagesRead] from 1 to 1000, whole or not, is
    never turned down with the page-count message; and the Supabase variant
    stores a whole number from 1 to 1000 (so 1 and 1000) when the date is in
    the window, the user has a profile and no entry for the date, at the
    lookup and at the insert. *)
Theorem addReadingLog_page_bounds (env : Env) (fresh : string)
    (other : Database -> Database) (db : Database)
    (userId : string) (logDate : Z) (pagesRead : Q) :
  let supabase := Supabase.addReadingLog env fresh other db userId logDate pagesRead in
  let appwrite := Appwrite.addReadingLog env fresh other db userId logDate pagesRead in
  ((pagesRead < 1)%Q \/ (1000 < pagesRead)%Q ->
   (isDateInRange env logDate 3 = false /\
    supabase = throw (Error MSG_DATE_RANGE) /\
    appwrite = throw (Error MSG_DATE_RANGE))
   \/
   (isDateInRange env logDate 3 = true /\
    supabase = throw (Error MSG_PAGES) /\
    appwrite = throw (Error MSG_PAGES))) /\
  ((1 <= pagesRead)%Q /\ (pagesRead <= 1000)%Q ->
   supabase <> throw (Error MSG_PAGES) /\ appwrite <> throw (Error MSG_PAGES)) /\
  (forall n : Z,
     pagesRead = inject_Z n -> 1 <= n <= 1000 ->
     isDateInRange env logDate 3 = true ->
     Supabase.getLogByDate db userId logDate = None ->
     existsb (fun r => String.eqb (user_id r) userId && (log_date r =? logDate))
       (reading_logs (other db)) = false ->
     find_profile (other db) userId <> None ->
     let data := mkLog fresh userId logDate n (now env) in
     supabase = ret (data, mkDb (profiles (other db))
                             (reading_logs (other db) ++ [data]))).
Proof.
  intros supabase appwrite. split; [| split].
  - intros Hout. apply pages_out_of_bounds_iff in Hout.
    destruct (isDateInRange env logDate 3) eqn:Hdate.
    + right. split; [reflexivity |]. split.
      * apply Supabase_addReadingLog_pages_error. tauto.
      * apply Appwrite_addReadingLog_pages_error. tauto.
    + left. split; [reflexivity |].
      unfold supabase, appwrite, Supabase.addReadingLog, Appwrite.addReadingLog.
      rewrite Hdate. split; reflexivity.
  - intros [Hlo Hhi]. pose proof (pages_in_bounds _ Hlo Hhi) as Hin.
    split; intros E;
      [apply Supabase_addReadingLog_pages_error in E
      | apply Appwrite_addReadingLog_pages_error in E];
      rewrite Hin in E; destruct E; discriminate.
  - intros n -> Hn Hdate Hnone Hfree Hprofile data.
    unfold supabase, Supabase.addReadingLog.
    rewrite Hdate, Hnone, (pages_in_bounds_Z n Hn). simpl.
    unfold Supabase.insert_log.
    rewrite is_integer_inject_Z, Qfloor_Z, Hfree. simpl.
    destruct (Z.leb_spec n 0); [lia |].
    destruct (find_profile (other db) userId); [reflexivity | congruence].
Qed.

Lemma addReadingLog_page_bounds_witness :
  ((1000 < 1001)%Q /\
   Supabase.addReadingLog env_ist "new" (fun d => d) db_fresh "reader" 19797 1001
   = throw (Error MSG_PAGES) /\
   Appwrite.addReadingLog env_ist "new" (fun d => d) db_fresh "reader" 19797 1001
   = throw (Error MSG_PAGES)) /\
  (1 <= 1000 <= 1000 /\
   isDateInRange env_ist 19797 3 = true /\
   Supabase.getLogByDate db_fresh "reader" 19797 = None /\
   find_profile db_fresh "reader" <> None /\
   Supabase.addReadingLog env_ist "new" (fun d => d) db_fresh "reader" 19797 1000
   = ret (mkLog "new" "reader" 19797 1000 (now env_ist),
          mkDb (profiles db_fresh)
            (reading_logs db_fresh ++ [mkLog "new" "reader" 19797 1000 (now env_ist)]))).
Proof.
  split.
  - split; [reflexivity |].
    destruct (proj1 (addReadingLog_page_bounds env_ist "new" (fun d => d) db_fresh
                       "reader" 19797 1001) (or_intror eq_refl))
      as [[Hdate _] | [_ Hboth]].
    + vm_compute in Hdate. discriminate Hdate.
    + exact Hboth.
  - assert (Hn : 1 <= 1000 <= 1000) by lia.
    assert (Hprofile : find_profile db_fresh "reader" <> None) by discriminate.
    split; [exact Hn |]. split; [reflexivity |]. split; [reflexivity |].
    split; [exact Hprofile |].
    exact (proj2 (proj2 (addReadingLog_page_bounds env_ist "new" (fun d => d)
                           db_fresh "reader" 19797 1000))
             1000 eq_refl Hn eq_refl eq_refl eq_refl Hprofile).
Defined.

(** Two and a half pages: not a whole number, inside the bounds.  The
    page-count test lets it through in both variants, and what is thrown
    in the end is no validation error: in the Supabase variant the error
    of the database, whose INTEGER column turns the value down at the
    insert, and in the Appwrite variant the [TypeError] of the call on
    [databases]. *)
Lemma addReadingLog_fraction_passes_the_test :
  is_integer (5 # 2) = false /\
  pages_out_of_bounds (5 # 2) = false /\
  Supabase.addReadingLog env_ist "new" (fun d => d) db_fresh "reader" 19797 (5 # 2)
  = throw (BackendError "22P02") /\
  Appwrite.addReadingLog env_ist "new" (fun d => d) db_fresh "reader" 19797 (5 # 2)
  = throw TypeError.
Proof. repeat split. Qed.

Example addReadingLog_bounds_examples :
  map (fun p => Supabase.addReadingLog env_ist "new" (fun d => d) db_fresh
                  "reader" 19797 p)
    [0%Q; 1%Q; 1000%Q; 1001%Q]
  = [throw (Error MSG_PAGES);
     ret (mkLog "new" "reader" 19797 1 (now env_ist),
          mkDb (profiles db_fresh) [mkLog "new" "reader" 19797 1 (now env_ist)]);
     ret (mkLog "new" "reader" 19797 1000 (now env_ist),
          mkDb (profiles db_fresh) [mkLog "new" "reader" 19797 1000 (now env_ist)]);
     throw (Error MSG_PAGES)].
Proof. reflexivity. Qed.

(** ** A second entry for the same date *)

Lemma Qfloor_pages_positive (p : Q) :
  pages_out_of_bounds p = false -> 0 < Qfloor p.
Proof.
  intros Hin.
  assert (Hlo : (1 <= p)%Q).
  { destruct (Qlt_le_dec p 1) as [Hlt | Hge]; [| exact Hge].
    assert (Hout : pages_out_of_bounds p = true)
      by (apply pages_out_of_bounds_iff; left; exact Hlt).
    congruence. }
  pose proof (Qfloor_resp_le _ _ Hlo) as Hfl.
  change 1%Q with (inject_Z 1) in Hfl. rewrite Qfloor_Z in Hfl. lia.
Qed.

(** C6, as the code has it.  For a date in the window and a page count
    that passes: when the lookup finds the user's entry for the date,
    [addReadingLog] throws the message that ends in "Please edit it
    instead."; when the lookup finds none but the entry is there by the
    time of the insert, the uniqueness error 23505 of the database is
    turned into the shorter message without that sentence.  The two
    messages differ, the second being the start of the first. *)
Theorem addReadingLog_duplicate_messages (env : Env) (fresh : string)
    (other : Database -> Database) (db : Database)
    (userId : string) (logDate : Z) (pagesRead : Q) :
  isDateInRange env logDate 3 = true ->
  pages_out_of_bounds pagesRead = false ->
  ((exists row, Supabase.getLogByDate db userId logDate = Some row) ->
   Supabase.addReadingLog env fresh other db userId logDate pagesRead
   = throw (Error MSG_EXISTS_PRECHECK)) /\
  (Supabase.getLogByDate db userId logDate = None ->
   is_integer pagesRead = true ->
   existsb (fun r => String.eqb (user_id r) userId && (log_date r =? logDate))
     (reading_logs (other db)) = true ->
   Supabase.insert_log env fresh (other db) userId logDate pagesRead = inl "23505"%string /\
   Supabase.addReadingLog env fresh other db userId logDate pagesRead
   = throw (Error MSG_EXISTS_STORAGE)) /\
  MSG_EXISTS_STORAGE <> MSG_EXISTS_PRECHECK /\
  MSG_EXISTS_PRECHECK = (MSG_EXISTS_STORAGE ++ ". Please edit it instead.")%string.
Proof.
  intros Hdate Hpages. split; [| split; [| split]].
  - intros [row Hrow]. unfold Supabase.addReadingLog.
    rewrite Hdate, Hpages, Hrow. reflexivity.
  - intros Hnone Hint Hdup.
    assert (Hinsert : Supabase.insert_log env fresh (other db) userId logDate pagesRead
                      = inl "23505").
    { unfold Supabase.insert_log. rewrite Hint, Hdup. simpl.
      pose proof (Qfloor_pages_positive pagesRead Hpages).
      destruct (Z.leb_spec (Qfloor pagesRead) 0); [lia | reflexivity]. }
    split; [exact Hinsert |].
    unfold Supabase.addReadingLog. rewrite Hdate, Hpages, Hnone, Hinsert.
    reflexivity.
  - discriminate.
  - reflexivity.
Qed.

Lemma addReadingLog_duplicate_messages_witness :
  isDateInRange env_ist 19797 3 = true /\
  pages_out_of_bounds 10 = false /\
  Supabase.getLogByDate db_fresh "reader" 19797 = None /\
  Supabase.addReadingLog env_ist "new" (fun _ => db_logged_today) db_fresh
    "reader" 19797 10
  = throw (Error MSG_EXISTS_STORAGE).
Proof.
  repeat (split; [reflexivity |]).
  exact (proj2 (proj1 (proj2 (addReadingLog_duplicate_messages env_ist "new"
                                (fun _ => db_logged_today) db_fresh "reader" 19797 10
                                eq_refl eq_refl))
                  eq_refl eq_refl eq_refl)).
Defined.

(** The same duplicate, caught once by the lookup and once by the
    database: the user reads two different messages. *)
Lemma addReadingLog_duplicate_messages_differ :
  Supabase.addReadingLog env_ist "new" (fun d => d) db_logged_today
    "reader" 19797 10
  = throw (Error "You already have an entry for this date. Please edit it instead.") /\
  Supabase.addReadingLog env_ist "new" (fun _ => db_logged_today) db_fresh
    "reader" 19797 10
  = throw (Error "You already have an entry for this date") /\
  "You already have an entry for this date"%string
  <> "You already have an entry for this date. Please edit it instead."%string.
Proof. repeat split. discriminate. Qed.

(** ** Updating an entry *)

Lemma update_by_id_frame (logId : string) (pages stamp : Z) (rows : list LogEntry) :
  Forall2 (kept_but_pages logId) rows (update_by_id logId pages stamp rows).
Proof.
  induction rows as [| r rows IH]; simpl; constructor; [| exact IH].
  unfold kept_but_pages.
  destruct (String.eqb_spec (entry_id r) logId); simpl; tauto.
Qed.

Lemma update_by_id_miss (logId : string) (pages stamp : Z) (rows : list LogEntry) :
  ~ In logId (map entry_id rows) ->
  filter (fun r => String.eqb (entry_id r) logId) (update_by_id logId pages stamp rows)
  = [].
Proof.
  induction rows as [| r rows IH]; simpl; intros Hnot; [reflexivity |].
  destruct (String.eqb_spec (entry_id r) logId) as [E | NE]; [tauto |].
  apply String.eqb_neq in NE. rewrite NE. apply IH. tauto.
Qed.

Lemma update_by_id_hit (pages stamp : Z) (rows : list LogEntry) (r : LogEntry) :
  NoDup (map entry_id rows) ->
  In r rows ->
  filter (fun x => String.eqb (entry_id x) (entry_id r))
    (update_by_id (entry_id r) pages stamp rows)
  = [set_pages pages stamp r].
Proof.
  induction rows as [| x rows IH]; simpl; intros Hnd Hin; [contradiction |].
  inversion Hnd as [| ? ? Hx Hnd']; subst.
  destruct Hin as [-> | Hin].
  - rewrite String.eqb_refl. simpl. rewrite String.eqb_refl.
    rewrite update_by_id_miss by exact Hx. reflexivity.
  - destruct (String.eqb_spec (entry_id x) (entry_id r)) as [E | NE].
    + exfalso. apply Hx. rewrite E. apply in_map, Hin.
    + apply String.eqb_neq in NE. rewrite NE. apply IH; assumption.
Qed.

(** X19.  The Supabase variant of [updateReadingLog] turns down a page
    count below 1 or above 1000 with the page-count message.  When it
    returns, the profiles are as before and every stored entry has kept its
    id, its owner and its date, the entries with another id being wholly as
    before.  And for a whole number from 1 to 1000 it does return for every
    stored entry, whatever the date of the entry: the entry comes back with
    the new page count and time stamp and its old id, owner and date. *)
Theorem Supabase_updateReadingLog_frame (env : Env) (db : Database)
    (logId : string) (pagesRead : Q) :
  let supabase := Supabase.updateReadingLog env db logId pagesRead in
  ((pagesRead < 1)%Q \/ (1000 < pagesRead)%Q ->
   supabase = throw (Error MSG_PAGES)) /\
  (forall data db',
     supabase = ret (data, db') ->
     profiles db' = profiles db /\
     Forall2 (kept_but_pages logId) (reading_logs db) (reading_logs db') /\
     In data (reading_logs db') /\
     entry_id data = logId) /\
  (forall (n : Z) (r : LogEntry),
     pagesRead = inject_Z n -> 1 <= n <= 1000 ->
     NoDup (map entry_id (reading_logs db)) ->
     In r (reading_logs db) -> entry_id r = logId ->
     let data := mkLog (entry_id r) (user_id r) (log_date r) n (now env) in
     let db' := mkDb (profiles db)
                  (update_by_id logId n (now env) (reading_logs db)) in
     supabase = ret (data, db')).
Proof.
  intros supabase. split; [| split].
  - intros Hout. apply pages_out_of_bounds_iff in Hout.
    unfold supabase, Supabase.updateReadingLog.
    rewrite Hout. reflexivity.
  - intros data db' Hret.
    unfold supabase, Supabase.updateReadingLog in Hret.
    destruct (pages_out_of_bounds pagesRead); [discriminate |].
    destruct (is_integer pagesRead); [| discriminate]. simpl in Hret.
    destruct (filter (fun r => String.eqb (entry_id r) logId)
                (update_by_id logId (Qfloor pagesRead) (now env) (reading_logs db)))
      as [| d [| d' rest]] eqn:Ef; try discriminate.
    injection Hret as <- <-.
    assert (Hin : In d (filter (fun r => String.eqb (entry_id r) logId)
                          (update_by_id logId (Qfloor pagesRead) (now env)
                             (reading_logs db))))
      by (rewrite Ef; left; reflexivity).
    apply filter_In in Hin. destruct Hin as [Hin Hid].
    apply String.eqb_eq in Hid. simpl.
    repeat split; try assumption. apply update_by_id_frame.
  - intros n r -> Hn Hnd Hin <- data db'.
    unfold supabase, Supabase.updateReadingLog.
    rewrite (pages_in_bounds_Z n Hn), is_integer_inject_Z, Qfloor_Z.
    simpl. rewrite (update_by_id_hit n (now env) _ r Hnd Hin).
    reflexivity.
Qed.

Lemma Supabase_updateReadingLog_frame_witness :
  1 <= 500 <= 1000 /\
  NoDup (map entry_id (reading_logs db_old_entry)) /\
  In old_entry (reading_logs db_old_entry) /\
  isDateInRange env_ist (log_date old_entry) 3 = false /\
  Supabase.updateReadingLog env_ist db_old_entry "old" 500
  = ret (mkLog "old" "reader" 19000 500 (now env_ist),
         mkDb (profiles db_old_entry)
           [mkLog "other" "someone" 19797 7 0;
            mkLog "old" "reader" 19000 500 (now env_ist)]).
Proof.
  assert (Hn : 1 <= 500 <= 1000) by lia.
  assert (Hnd : NoDup (map entry_id (reading_logs db_old_entry))).
  { simpl. repeat constructor; simpl; intuition discriminate. }
  assert (Hin : In old_entry (reading_logs db_old_entry))
    by (simpl; right; left; reflexivity).
  do 3 (split; [assumption |]). split; [reflexivity |].
  exact (proj2 (proj2 (Supabase_updateReadingLog_frame env_ist db_old_entry "old" 500))
           500 old_entry eq_refl Hn Hnd Hin eq_refl).
Defined.

(** C9, where the code departs from it.  The stored entry "old" and 500
    pages, a page count within the bounds: the Supabase variant returns the
    entry with its pages updated and its date and owner as before; the
    Appwrite variant takes [databases] from [window.databases], which no
    script assigns, so its call of [updateDocument] throws a [TypeError]
    and nothing is updated.  A page count out of bounds is turned down by
    both. *)
Theorem updateReadingLog_without_databases :
  Appwrite.window "databases" = None /\
  In old_entry (reading_logs db_old_entry) /\
  pages_out_of_bounds 500 = false /\
  Supabase.updateReadingLog env_ist db_old_entry "old" 500
  = ret (mkLog "old" "reader" 19000 500 (now env_ist),
         mkDb (profiles db_old_entry)
           [mkLog "other" "someone" 19797 7 0;
            mkLog "old" "reader" 19000 500 (now env_ist)]) /\
  Appwrite.updateReadingLog env_ist db_old_entry "old" 500 = throw TypeError /\
  Appwrite.updateReadingLog env_ist db_old_entry "old" 1001 = throw (Error MSG_PAGES).
Proof.
  split; [reflexivity |]. split; [right; left; reflexivity |].
  repeat split.
Qed.

Example updateReadingLog_out_of_bounds :
  map (Supabase.updateReadingLog env_ist db_old_entry "old") [0%Q; 1001%Q]
  = [throw (Error MSG_PAGES); throw (Error MSG_PAGES)] /\
  map (Appwrite.updateReadingLog env_ist db_old_entry "old") [0%Q; 1001%Q]
  = [throw (Error MSG_PAGES); throw (Error MSG_PAGES)].
Proof. split; reflexivity. Qed.

(** ** Fetching a user's entries *)

Lemma StronglySorted_weaken {A : Type} (R R' : A -> A -> Prop) (l : list A) :
  (forall a b, R a b -> R' a b) -> StronglySorted R l -> StronglySorted R' l.
Proof.
  intros Himp. induction 1 as [| a l Hs IH Ha]; constructor; [exact IH |].
  eapply Forall_impl; [| exact Ha]. intros b. apply Himp.
Qed.

Lemma q_order_date_desc_sorted (rows : list LogEntry) :
  StronglySorted (fun a b => log_date b <= log_date a) (q_order_date_desc rows).
Proof.
  apply (StronglySorted_weaken (key_le (fun r => - log_date r))).
  - unfold key_le. intros a b. lia.
  - apply Array_sort_sorted. intros a b. unfold by_log_date_desc. lia.
Qed.

(** X3.  Called without a limit, [getUserLogs] of the Supabase variant
    returns the 50 most recent entries of the user, or all of them when
    they are fewer, from the latest on: together with entries none of
    which is later than one returned they make up the user's entries.  The
    statistics that [refreshLogs] shows are those of the returned entries:
    their page sum as [totalPages] and their number, at most 50, as
    [daysLogged]. *)
Theorem Supabase_getUserLogs_most_recent (db : Database) (userId : string) :
  let mine := filter (fun r => String.eqb (user_id r) userId) (reading_logs db) in
  let logs := Supabase.getUserLogs db userId None in
  List.length logs = Nat.min 50 (List.length mine) /\
  (exists rest,
     Permutation (logs ++ rest) mine /\
     forall r e, In r logs -> In e rest -> log_date e <= log_date r) /\
  StronglySorted (fun a b => log_date b <= log_date a) logs /\
  (forall fuel env,
     (50 < fuel)%nat ->
     exists stats,
       refreshLogs (Supabase.getUserLogs db) fuel env userId = Some (logs, stats) /\
       totalPages stats = sum_pages logs /\
       daysLogged stats = Z.of_nat (Nat.min 50 (List.length mine)) /\
       daysLogged stats <= 50).
Proof.
  intros mine logs.
  set (sorted := q_order_date_desc (q_eq_user userId (reading_logs db))).
  assert (Hlogs : logs = firstn 50 sorted) by reflexivity.
  assert (Hsorted : StronglySorted (fun a b => log_date b <= log_date a) sorted)
    by apply q_order_date_desc_sorted.
  assert (Hperm : Permutation sorted mine) by apply Array_sort_perm.
  assert (Hlen : List.length logs = Nat.min 50 (List.length mine)).
  { rewrite Hlogs, length_firstn, (Permutation_length Hperm). reflexivity. }
  split; [exact Hlen |]. split; [| split].
  - exists (skipn 50 sorted). split.
    + rewrite Hlogs, firstn_skipn. exact Hperm.
    + intros r e Hr He. rewrite Hlogs in Hr.
      exact (firstn_sorted_ahead _ 50 sorted Hsorted r e Hr He).
  - rewrite Hlogs. apply firstn_StronglySorted, Hsorted.
  - intros fuel env Hfuel.
    destruct (calculateStats_returns fuel env logs ltac:(lia))
      as [stats [Hst [Htotal [Hdays _]]]].
    exists stats. unfold refreshLogs. fold logs. rewrite Hst.
    split; [reflexivity |]. split; [exact Htotal |].
    rewrite Hdays, Hlen. split; [reflexivity | lia].
Qed.

Lemma Supabase_getUserLogs_most_recent_witness :
  (50 < 52)%nat /\
  List.length (filter (fun r => String.eqb (user_id r) "reader")
                 (reading_logs db_51_days)) = 51%nat /\
  List.length (Supabase.getUserLogs db_51_days "reader" None) = 50%nat /\
  exists stats,
    refreshLogs (Supabase.getUserLogs db_51_days) 52 env_ist "reader"
    = Some (Supabase.getUserLogs db_51_days "reader" None, stats) /\
    daysLogged stats = 50.
Proof.
  assert (Hfuel : (50 < 52)%nat) by lia.
  assert (Hmine : List.length (filter (fun r => String.eqb (user_id r) "reader")
                                 (reading_logs db_51_days)) = 51%nat)
    by reflexivity.
  split; [exact Hfuel |]. split; [exact Hmine |].
  destruct (Supabase_getUserLogs_most_recent db_51_days "reader")
    as [Hlen [_ [_ Hstats]]].
  split; [rewrite Hlen, Hmine; reflexivity |].
  destruct (Hstats 52%nat env_ist Hfuel) as [stats [Hs [_ [Hd _]]]].
  exists stats. split; [exact Hs |]. rewrite Hd, Hmine. reflexivity.
Defined.

(** C10, where the code departs from it.  A reader with 51 entries, a page
    each, on consecutive days that end today.  The Supabase variant
    returns the 50 most recent of them and the dashboard shows their
    statistics.  The Appwrite variant takes [databases] from
    [window.databases], which no script assigns: [listDocuments] throws,
    the [catch] returns the empty array, and the dashboard shows the
    statistics of no entries. *)
Theorem getUserLogs_without_databases :
  Appwrite.window "databases" = None /\
  List.length (filter (fun r => String.eqb (user_id r) "reader")
                 (reading_logs db_51_days)) = 51%nat /\
  map log_date (Supabase.getUserLogs db_51_days "reader" None)
  = map (fun i => 19797 - Z.of_nat i) (seq 0 50) /\
  option_map snd (refreshLogs (Supabase.getUserLogs db_51_days) 52 env_ist "reader")
  = Some (mkStats 50 50 1 50 50) /\
  Appwrite.getUserLogs db_51_days "reader" None = [] /\
  refreshLogs (Appwrite.getUserLogs db_51_days) 52 env_ist "reader"
  = Some ([], mkStats 0 0 0 0 0).
Proof. vm_compute. repeat split. Qed.

(** Fifty-one days in a row, and the dashboard shows fifty of them. *)
Example refreshLogs_51_days :
  option_map snd (refreshLogs (Supabase.getUserLogs db_51_days) 52 env_ist "reader")
  = Some (mkStats 50 50 1 50 50).
Proof. vm_compute. reflexivity. Qed.

(** ** The leaderboard *)

Lemma month_start_day (env : Env) :
  formatDateForInput env (getMonthStart env) = month_first_day env.
Proof.
  unfold formatDateForInput, getMonthStart, month_first_day, getToday,
    formatDateForInput, localDay.
  destruct (civil_from_days ((now env + tzOffset env) / MS_PER_DAY)) as [[y m] d].
  replace (days_from_civil y m 1 * MS_PER_DAY - tzOffset env + tzOffset env)
    with (days_from_civil y m 1 * MS_PER_DAY) by lia.
  apply Z.div_mul. pose proof MS_PER_DAY_pos. lia.
Qed.

Lemma has_user_In (uid : string) (l : list Entry) :
  has_user uid l = true <-> In uid (map userId l).
Proof.
  unfold has_user. rewrite existsb_exists, in_map_iff.
  split; intros [e [H1 H2]]; exists e.
  - apply String.eqb_eq in H2. tauto.
  - split; [tauto | apply String.eqb_eq; tauto].
Qed.

Lemma add_pages_ids (uid : string) (p : Z) (l : list Entry) :
  map userId (add_pages uid p l) = map userId l.
Proof.
  unfold add_pages. rewrite map_map. apply map_ext.
  intros e. destruct (String.eqb (userId e) uid); reflexivity.
Qed.

Lemma add_pages_In (uid : string) (p : Z) (l : list Entry) (e' : Entry) :
  In e' (add_pages uid p l) ->
  exists e, In e l /\ userId e' = userId e /\
            entryTotalPages e'
            = entryTotalPages e + (if String.eqb (userId e) uid then p else 0).
Proof.
  unfold add_pages. rewrite in_map_iff. intros [e [He Hin]].
  exists e. split; [exact Hin |]. subst e'.
  destruct (String.eqb (userId e) uid); simpl; split; (reflexivity || lia).
Qed.

Lemma pages_of_user_app (uid : string) (l1 l2 : list (string * Z)) :
  pages_of_user uid (l1 ++ l2) = pages_of_user uid l1 + pages_of_user uid l2.
Proof.
  unfold pages_of_user. induction l1 as [| a l1 IH]; simpl; [lia |].
  rewrite IH. destruct (String.eqb (fst a) uid); lia.
Qed.

Lemma pages_of_user_absent (uid : string) (l : list (string * Z)) :
  ~ In uid (map fst l) -> pages_of_user uid l = 0.
Proof.
  unfold pages_of_user. induction l as [| a l IH]; simpl; intros H; [reflexivity |].
  destruct (String.eqb_spec (fst a) uid); [tauto | apply IH; tauto].
Qed.

Section AggregateFacts.
Context {Row : Type}.
Variable row_user : Row -> string.
Variable row_pages : Row -> Z.
Variable first_seen : Row -> Entry.
Hypothesis first_seen_user : forall r, userId (first_seen r) = row_user r.
Hypothesis first_seen_total : forall r, entryTotalPages (first_seen r) = 0.

Let step := aggregate_step row_user row_pages first_seen.
Let pair_of (r : Row) : string * Z := (row_user r, row_pages r).

Lemma aggregate_step_totals (pairs : list (string * Z)) (acc : list Entry) (r : Row) :
  totals_of pairs acc -> totals_of (pairs ++ [pair_of r]) (step acc r).
Proof.
  intros [Hnd [Hids Htot]].
  unfold step, aggregate_step, totals_of.
  rewrite add_pages_ids.
  assert (Hone : forall uid,
             pages_of_user uid (pairs ++ [pair_of r])
             = pages_of_user uid pairs
               + (if String.eqb uid (row_user r) then row_pages r else 0)).
  { intros uid. rewrite pages_of_user_app. unfold pages_of_user, pair_of. simpl.
    rewrite (String.eqb_sym uid).
    destruct (String.eqb (row_user r) uid); lia. }
  destruct (has_user (row_user r) acc) eqn:Hhas.
  - apply has_user_In in Hhas. split; [exact Hnd |]. split.
    + intros uid. rewrite map_app, in_app_iff, Hids. simpl.
      split; [tauto |]. intros [H | [<- | []]]; [exact H |].
      apply Hids, Hhas.
    + intros e' He'. apply add_pages_In in He'.
      destruct He' as [e [He [Hid Ht]]].
      rewrite Ht, Hid, Hone, (Htot e He). reflexivity.
  - assert (Hnew : ~ In (row_user r) (map userId acc)).
    { intros H. apply has_user_In in H. congruence. }
    rewrite map_app. simpl. rewrite first_seen_user. split; [| split].
    + apply (Permutation_NoDup (Permutation_cons_append _ _)).
      constructor; assumption.
    + intros uid. rewrite map_app, !in_app_iff, Hids. simpl. tauto.
    + intros e' He'. apply add_pages_In in He'.
      destruct He' as [e [He [Hid Ht]]].
      rewrite Ht, Hid, Hone. apply in_app_or in He.
      destruct He as [He | [<- | []]].
      * rewrite (Htot e He). reflexivity.
      * rewrite first_seen_user, first_seen_total, String.eqb_refl.
        rewrite (pages_of_user_absent (row_user r) pairs); [reflexivity |].
        intros H. apply Hnew, Hids, H.
Qed.

Lemma aggregate_fold_totals (rows : list Row) :
  forall pairs acc,
    totals_of pairs acc ->
    totals_of (pairs ++ map pair_of rows) (fold_left step rows acc).
Proof.
  induction rows as [| r rows IH]; intros pairs acc Hacc; simpl.
  - rewrite app_nil_r. exact Hacc.
  - replace (pairs ++ pair_of r :: map pair_of rows)
      with ((pairs ++ [pair_of r]) ++ map pair_of rows)
      by (rewrite <- app_assoc; reflexivity).
    apply IH, aggregate_step_totals, Hacc.
Qed.

(** The loop ends with one object per user, holding the user's sum. *)
Lemma aggregate_totals (rows : list Row) :
  totals_of (map (fun r => (row_user r, row_pages r)) rows)
    (aggregate row_user row_pages first_seen rows).
Proof.
  apply (aggregate_fold_totals rows [] []).
  unfold totals_of. simpl. repeat split; try tauto. constructor.
Qed.
End AggregateFacts.

Lemma with_ranks_core (l : list Entry) :
  forall i, map core (with_ranks i l) = map core l.
Proof. induction l as [| e l IH]; intros i; simpl; [| rewrite IH]; reflexivity. Qed.

Lemma with_ranks_nth (l : list Entry) :
  forall i k e, nth_error (with_ranks i l) k = Some e ->
                rank e = Some (i + Z.of_nat k + 1).
Proof.
  induction l as [| x l IH]; intros i k e H.
  - destruct k; discriminate.
  - destruct k as [| k]; simpl in H.
    + injection H as <-. simpl. f_equal. lia.
    + rewrite (IH _ _ _ H). f_equal. lia.
Qed.

Lemma StronglySorted_map {A B : Type} (f : A -> B) (R : B -> B -> Prop) (l : list A) :
  StronglySorted (fun a b => R (f a) (f b)) l <-> StronglySorted R (map f l).
Proof.
  induction l as [| a l IH]; simpl.
  - split; constructor.
  - split; intros H; inversion H as [| ? ? Hs Ha]; subst; constructor;
      try (apply IH; exact Hs).
    + rewrite Forall_forall in *. intros b Hb. apply in_map_iff in Hb.
      destruct Hb as [x [<- Hx]]. apply Ha, Hx.
    + rewrite Forall_forall in *. intros x Hx. apply Ha, in_map, Hx.
Qed.

Lemma firstn_NoDup {A : Type} (n : nat) (l : list A) : NoDup l -> NoDup (firstn n l).
Proof.
  intros H. rewrite <- (firstn_skipn n l) in H.
  exact (NoDup_app_remove_r _ _ H).
Qed.

Lemma same_core_In (board top : list Entry) (e : Entry) :
  map core board = map core top -> In e board ->
  exists e0, In e0 top /\ userId e0 = userId e /\
             entryTotalPages e0 = entryTotalPages e.
Proof.
  intros Hcore He. apply (in_map core) in He. rewrite Hcore in He.
  apply in_map_iff in He. destruct He as [e0 [E He0]].
  exists e0. unfold core in E. injection E as E1 E2. tauto.
Qed.

(** Sorting the totals, cutting at [N] and numbering gives the leaderboard;
    what is done to the objects besides does not matter as long as user
    and total stay. *)
Lemma leaderboard_of_ranked (pairs : list (string * Z)) (N : nat)
    (userTotals top' : list Entry) :
  totals_of pairs userTotals ->
  map core top' = map core (firstn N (Array_sort by_total_desc userTotals)) ->
  leaderboard_of pairs N (with_ranks 0 top').
Proof.
  intros [Hnd [Hids Htot]] Htop.
  set (sorted := Array_sort by_total_desc userTotals) in *.
  set (top := firstn N sorted) in *.
  set (board := with_ranks 0 top').
  assert (Hperm : Permutation sorted userTotals) by apply Array_sort_perm.
  assert (Hcore : map core board = map core top).
  { unfold board. rewrite with_ranks_core. exact Htop. }
  assert (Hboard_ids : map userId board = map userId top).
  { change userId with (fun e => fst (core e)).
    rewrite <- !(map_map core fst), Hcore. reflexivity. }
  assert (Hsorted : StronglySorted (fun a b => entryTotalPages b <= entryTotalPages a) sorted).
  { apply (StronglySorted_weaken (key_le (fun e => - entryTotalPages e))).
    - unfold key_le. intros a b. lia.
    - apply Array_sort_sorted. intros a b. unfold by_total_desc. lia. }
  assert (Htop_in : forall e0, In e0 top -> In e0 userTotals).
  { intros e0 H. apply firstn_incl in H. exact (Permutation_in _ Hperm H). }
  unfold leaderboard_of. fold board. split; [| split; [| split; [| split; [| split]]]].
  - rewrite Hboard_ids. unfold top. rewrite <- firstn_map. apply firstn_NoDup.
    apply (Permutation_NoDup (Permutation_map userId (Permutation_sym Hperm)) Hnd).
  - rewrite <- (length_map core board), Hcore, length_map.
    unfold top. rewrite length_firstn. f_equal.
    rewrite (Permutation_length Hperm), <- (length_map userId userTotals).
    apply Permutation_length, NoDup_Permutation;
      [exact Hnd | apply NoDup_nodup |].
    intros uid. rewrite nodup_In. apply Hids.
  - intros e He. destruct (same_core_In board top e Hcore He) as [e0 [He0 [<- <-]]].
    apply Htop_in in He0. split; [| exact (Htot e0 He0)].
    apply Hids, in_map, He0.
  - apply (StronglySorted_map core (fun a b => snd b <= snd a)).
    rewrite Hcore. apply StronglySorted_map. simpl.
    apply firstn_StronglySorted, Hsorted.
  - intros i e H. rewrite (with_ranks_nth top' 0 i e H). f_equal.
  - intros uid Huid Hout e He.
    destruct (same_core_In board top e Hcore He) as [e0 [He0 [_ <-]]].
    apply Hids in Huid. apply in_map_iff in Huid.
    destruct Huid as [eu [Eu Hu]].
    rewrite <- Eu, <- (Htot eu Hu).
    assert (Hin : In eu sorted) by exact (Permutation_in _ (Permutation_sym Hperm) Hu).
    rewrite <- (firstn_skipn N sorted) in Hin. apply in_app_or in Hin.
    destruct Hin as [Hin | Hin].
    + exfalso. apply Hout. rewrite Hboard_ids, <- Eu. apply in_map, Hin.
    + exact (firstn_sorted_ahead _ N sorted Hsorted e0 eu He0 Hin).
Qed.

Lemma q_gte_month_start (env : Env) (db : Database) :
  q_gte_date (formatDateForInput env (getMonthStart env)) (reading_logs db)
  = this_month env db.
Proof. rewrite month_start_day. reflexivity. Qed.

(** With every log owned by a profile, the inner join keeps every log. *)
Lemma inner_join_pairs (db : Database) (logs : list LogEntry) :
  (forall r, In r logs -> find_profile db (user_id r) <> None) ->
  map (fun j => (Supabase.j_user_id j, Supabase.j_pages_read j))
    (Supabase.inner_join db logs)
  = user_pages logs.
Proof.
  unfold Supabase.inner_join, user_pages.
  induction logs as [| r logs IH]; intros Hfk; simpl; [reflexivity |].
  destruct (find_profile db (user_id r)) eqn:E.
  - simpl. rewrite IH; [reflexivity |]. intros x Hx. apply Hfk. right. exact Hx.
  - exfalso. apply (Hfk r); [left; reflexivity | exact E].
Qed.

(** X20.  With every log owned by a profile, [getLeaderboard(N)] of the
    Supabase variant groups the entries dated on or after the first day of
    the current month by user, sums their pages, sorts the totals from the
    largest down, keeps the first N and ranks them 1, 2, ... by position. *)
Theorem Supabase_getLeaderboard_ranking (env : Env) (db : Database)
    (limit : option nat) :
  (forall r, In r (reading_logs db) -> find_profile db (user_id r) <> None) ->
  leaderboard_of (user_pages (this_month env db)) (default_arg 10%nat limit)
    (Supabase.getLeaderboard env db limit).
Proof.
  intros Hfk.
  assert (Hshape : Supabase.getLeaderboard env db limit
                   = with_ranks 0
                       (firstn (default_arg 10%nat limit)
                          (Array_sort by_total_desc
                             (aggregate Supabase.j_user_id Supabase.j_pages_read
                                Supabase.first_seen
                                (Supabase.inner_join db (this_month env db)))))).
  { unfold Supabase.getLeaderboard. rewrite q_gte_month_start.
    destruct (Supabase.inner_join db (this_month env db)); [| reflexivity].
    destruct (default_arg 10%nat limit); reflexivity. }
  rewrite Hshape.
  apply (leaderboard_of_ranked _ _
           (aggregate Supabase.j_user_id Supabase.j_pages_read Supabase.first_seen
              (Supabase.inner_join db (this_month env db)))); [| reflexivity].
  rewrite <- (inner_join_pairs db (this_month env db)).
  - apply aggregate_totals; intros r; reflexivity.
  - intros r Hr. apply Hfk. unfold this_month in Hr.
    apply filter_In in Hr. tauto.
Qed.

Lemma Supabase_getLeaderboard_ranking_witness :
  (forall r, In r (reading_logs db_abc) -> find_profile db_abc (user_id r) <> None) /\
  leaderboard_of (user_pages (this_month env_ist db_abc)) 2
    (Supabase.getLeaderboard env_ist db_abc (Some 2%nat)).
Proof.
  assert (Hfk : forall r, In r (reading_logs db_abc) ->
                          find_profile db_abc (user_id r) <> None).
  { intros r Hr. simpl in Hr.
    repeat (destruct Hr as [<- | Hr]; [discriminate |]). contradiction. }
  split; [exact Hfk |].
  exact (Supabase_getLeaderboard_ranking env_ist db_abc (Some 2%nat) Hfk).
Defined.

(** C7, where the code departs from it.  A with 30 pages this month (and
    500 before it), B and C with 50 each, and a limit of 2.  The Supabase
    variant returns the two readers with 50 pages, ranked 1 and 2.  The
    Appwrite variant takes [databases] from [window.databases], which no
    script assigns: its call of [listDocuments] throws inside [try], and
    the [catch] returns the empty array. *)
Theorem getLeaderboard_without_databases :
  Appwrite.window "databases" = None /\
  Appwrite.window "appwriteDatabases" = Some Appwrite.TheDatabases /\
  map (fun uid => pages_of_user uid (user_pages (this_month env_ist db_abc)))
    ["A"; "B"; "C"]
  = [30; 50; 50] /\
  Supabase.getLeaderboard env_ist db_abc (Some 2%nat)
  = [mkEntry "B" (Some "Bala") None 50 (Some 1);
     mkEntry "C" (Some "Chitra") (Some "c.png") 50 (Some 2)] /\
  Appwrite.getLeaderboard env_ist db_abc (Some 2%nat) = [].
Proof. repeat split. Qed.

Lemma with_ranks_In (l : list Entry) :
  forall i e, In e (with_ranks i l) ->
              exists e0, In e0 l /\ userId e = userId e0 /\
                         username e = username e0 /\ avatarUrl e = avatarUrl e0.
Proof.
  induction l as [| x l IH]; intros i e H; simpl in H; [contradiction |].
  destruct H as [<- | H].
  - exists x. simpl. tauto.
  - destruct (IH _ _ H) as [e0 [H0 Hrest]]. exists e0. simpl. tauto.
Qed.

(** In the Supabase variant the names come with the rows of the join, so
    every entry of its leaderboard is of a user with a profile. *)
Lemma Supabase_getLeaderboard_profiles (env : Env) (db : Database)
    (limit : option nat) (e : Entry) :
  In e (Supabase.getLeaderboard env db limit) ->
  find_profile db (userId e) <> None.
Proof.
  intros He.
  assert (Hrow : exists r, In r (reading_logs db) /\ user_id r = userId e /\
                           find_profile db (user_id r) <> None).
  { unfold Supabase.getLeaderboard in He.
    set (data := Supabase.inner_join db _) in *.
    assert (Hdata : forall j, In j data ->
              exists r, In r (reading_logs db) /\ user_id r = Supabase.j_user_id j /\
                        find_profile db (user_id r) <> None).
    { intros j Hj. unfold data, Supabase.inner_join in Hj.
      apply in_flat_map in Hj. destruct Hj as [r [Hr Hj]].
      apply filter_In in Hr.
      destruct (find_profile db (user_id r)) eqn:E; [| contradiction].
      destruct Hj as [<- | []]. exists r. simpl. rewrite E.
      repeat split; [tauto | discriminate]. }
    assert (Hagg : In (userId e)
                     (map fst (map (fun j => (Supabase.j_user_id j, Supabase.j_pages_read j))
                                 data))).
    { destruct data as [| j0 data'] eqn:Edata; [contradiction |].
      rewrite <- Edata in *. clear Edata j0 data'.
      apply with_ranks_In in He. destruct He as [e0 [He0 [-> _]]].
      apply firstn_incl in He0. apply Array_sort_In in He0.
      pose proof (aggregate_totals Supabase.j_user_id Supabase.j_pages_read
                    Supabase.first_seen (fun _ => eq_refl) (fun _ => eq_refl) data)
        as [_ [Hids _]].
      apply Hids, in_map, He0. }
    rewrite map_map in Hagg. simpl in Hagg. apply in_map_iff in Hagg.
    destruct Hagg as [j [<- Hj]]. exact (Hdata j Hj). }
  destruct Hrow as [r [_ [<- H]]]. exact H.
Qed.

(** C8, where the code departs from it.  The reader "ghost" has 40 pages
    this month, the most of all, and no profile.  The loop of the Appwrite
    variant that would name such a reader "Unknown User" is never reached:
    [databases] is [undefined], [listDocuments] throws, and [getLeaderboard]
    returns the empty array, so the reader is not listed, and neither is
    the reader who has a profile.  [getProfile] reads the same
    [window.databases] and returns null for both. *)
Theorem getLeaderboard_unknown_user_not_listed :
  Appwrite.window "databases" = None /\
  pages_of_user "ghost" (user_pages (this_month env_ist db_ghost)) = 40 /\
  pages_of_user "reader" (user_pages (this_month env_ist db_ghost)) = 10 /\
  find_profile db_ghost "ghost" = None /\
  find_profile db_ghost "reader" = Some (mkProfile "reader" "Reader" None) /\
  Appwrite.getProfile db_ghost "ghost" = None /\
  Appwrite.getProfile db_ghost "reader" = None /\
  Appwrite.getLeaderboard env_ist db_ghost None = [].
Proof. repeat split. Qed.

Example civil_from_days_ex : civil_from_days 19797 = (2024, 3, 15).
Proof. reflexivity. Qed.

Example days_from_civil_ex : days_from_civil 2024 3 15 = 19797.
Proof. reflexivity. Qed.

Example getToday_ex : getToday env_ist = 19797.
Proof. reflexivity. Qed.

Example getMonthStart_ex :
  formatDateForInput env_ist (getMonthStart env_ist) = days_from_civil 2024 3 1.
Proof. reflexivity. Qed.

(** * Further properties *)

(** ** Create, look up, update, delete *)

Lemma queries_entries_for (uid : string) (d : Z) (rows : list LogEntry) :
  q_eq_date d (q_eq_user uid rows) = entries_for uid d rows.
Proof.
  unfold q_eq_date, q_eq_user, entries_for.
  induction rows as [| r rows IH]; simpl; [reflexivity |].
  destruct (String.eqb (user_id r) uid); simpl; [| exact IH].
  destruct (log_date r =? d); simpl; [f_equal |]; exact IH.
Qed.

Lemma entries_for_existsb (uid : string) (d : Z) (rows : list LogEntry) :
  existsb (fun r => String.eqb (user_id r) uid && (log_date r =? d)) rows = false
  <-> entries_for uid d rows = [].
Proof.
  unfold entries_for. induction rows as [| r rows IH]; simpl; [tauto |].
  destruct (String.eqb (user_id r) uid && (log_date r =? d)); simpl.
  - split; discriminate.
  - exact IH.
Qed.

Lemma entries_for_app (uid : string) (d : Z) (l1 l2 : list LogEntry) :
  entries_for uid d (l1 ++ l2) = entries_for uid d l1 ++ entries_for uid d l2.
Proof. apply filter_app. Qed.

Lemma entries_for_self (r : LogEntry) :
  entries_for (user_id r) (log_date r) [r] = [r].
Proof.
  unfold entries_for. simpl. rewrite String.eqb_refl, Z.eqb_refl. reflexivity.
Qed.

Lemma Supabase_getLogByDate_entries (db : Database) (uid : string) (d : Z) :
  Supabase.getLogByDate db uid d
  = match entries_for uid d (reading_logs db) with
    | [row] => Some row
    | _ => None
    end.
Proof. unfold Supabase.getLogByDate. rewrite queries_entries_for. reflexivity. Qed.

Lemma parseInt_floor (p : Q) : (0 <= p)%Q -> parseInt p = Qfloor p.
Proof.
  destruct p as [n d]. unfold Qle, parseInt. simpl. intros H.
  apply Z.quot_div_nonneg; lia.
Qed.

(** What is stored for a page count that passes the test. *)
Lemma stored_pages (p : Q) :
  pages_out_of_bounds p = false ->
  1 <= Qfloor p <= 1000 /\ parseInt p = Qfloor p.
Proof.
  intros Hin.
  assert (Hlo : (1 <= p)%Q).
  { apply Qnot_lt_le. intros H.
    assert (pages_out_of_bounds p = true) by (apply pages_out_of_bounds_iff; tauto).
    congruence. }
  assert (Hhi : (p <= 1000)%Q).
  { apply Qnot_lt_le. intros H.
    assert (pages_out_of_bounds p = true) by (apply pages_out_of_bounds_iff; tauto).
    congruence. }
  pose proof (Qfloor_resp_le _ _ Hlo) as H1.
  pose proof (Qfloor_resp_le _ _ Hhi) as H2.
  change 1%Q with (inject_Z 1) in H1. change 1000%Q with (inject_Z 1000) in H2.
  rewrite Qfloor_Z in H1, H2.
  split; [lia |]. apply parseInt_floor. lra.
Qed.

(** What a successful [addReadingLog] of the Supabase variant did;
    [other db] is the database as the insert found it. *)
Lemma addReadingLog_success (env : Env) (fresh : string)
    (other : Database -> Database) (db : Database)
    (uid : string) (d : Z) (p : Q) (data : LogEntry) (db' : Database) :
  Supabase.addReadingLog env fresh other db uid d p = ret (data, db') ->
  isDateInRange env d 3 = true /\
  entries_for uid d (reading_logs (other db)) = [] /\
  data = mkLog fresh uid d (Qfloor p) (now env) /\
  1 <= Qfloor p <= 1000 /\
  db' = mkDb (profiles (other db)) (reading_logs (other db) ++ [data]).
Proof.
  intros H. unfold Supabase.addReadingLog in H.
  destruct (isDateInRange env d 3); [| discriminate].
  destruct (pages_out_of_bounds p) eqn:Hp; [discriminate |].
  destruct (Supabase.getLogByDate db uid d); [discriminate |]. simpl in H.
  unfold Supabase.insert_log in H.
  destruct (is_integer p); [| discriminate]. simpl in H.
  destruct (Qfloor p <=? 0); [discriminate |].
  destruct (existsb _ (reading_logs (other db))) eqn:Hex; [discriminate |].
  destruct (find_profile (other db) uid); [| discriminate].
  injection H as <- <-. apply entries_for_existsb in Hex.
  destruct (stored_pages p Hp). repeat split; try assumption; lia.
Qed.

Lemma entries_for_created (uid : string) (d : Z) (rows : list LogEntry)
    (data : LogEntry) :
  entries_for uid d rows = [] ->
  user_id data = uid -> log_date data = d ->
  entries_for uid d (rows ++ [data]) = [data].
Proof.
  intros Hnone <- <-. rewrite entries_for_app, Hnone. apply entries_for_self.
Qed.

(** After a successful [addReadingLog] the user has exactly the created
    entry for the date. *)
Lemma created_entry_alone (env : Env) (fresh : string)
    (other : Database -> Database) (db : Database) (uid : string) (d : Z) (p : Q)
    (data : LogEntry) (db' : Database) :
  Supabase.addReadingLog env fresh other db uid d p = ret (data, db') ->
  entries_for uid d (reading_logs db') = [data].
Proof.
  intros H.
  destruct (addReadingLog_success env fresh other db uid d p data db' H)
    as [_ [Hnone [Hdata [_ Hdb]]]].
  rewrite Hdb. simpl. apply entries_for_created; [exact Hnone | |];
    rewrite Hdata; reflexivity.
Qed.

(** X1.  An entry that [addReadingLog] of the Supabase variant created is
    the one that [getLogByDate] then finds for the user and date, whatever
    other sessions wrote between the lookup and the insert; it is appended
    to the stored entries, carries the given id, user and date and a page
    count from 1 to 1000, and its date passed the window test. *)
Theorem addReadingLog_then_getLogByDate (env : Env) (fresh : string)
    (other : Database -> Database) (db : Database) (uid : string) (d : Z) (p : Q)
    (data : LogEntry) (db' : Database) :
  Supabase.addReadingLog env fresh other db uid d p = ret (data, db') ->
  Supabase.getLogByDate db' uid d = Some data /\
  reading_logs db' = reading_logs (other db) ++ [data] /\
  profiles db' = profiles (other db) /\
  entry_id data = fresh /\ user_id data = uid /\ log_date data = d /\
  1 <= pages_read data <= 1000 /\
  isDateInRange env d 3 = true.
Proof.
  intros H.
  destruct (addReadingLog_success env fresh other db uid d p data db' H)
    as [Hdate [Hnone [Hdata [Hpages Hdb]]]].
  pose proof (created_entry_alone env fresh other db uid d p data db' H)
    as Hfor.
  rewrite Supabase_getLogByDate_entries, Hfor.
  rewrite Hdb, Hdata. simpl. repeat split; (reflexivity || lia || assumption).
Qed.

Lemma addReadingLog_then_getLogByDate_witness :
  Supabase.addReadingLog env_ist "new" (fun x => x) db_fresh "reader" 19797 10
  = ret (mkLog "new" "reader" 19797 10 (now env_ist),
         mkDb (profiles db_fresh) [mkLog "new" "reader" 19797 10 (now env_ist)]) /\
  Supabase.getLogByDate
    (mkDb (profiles db_fresh) [mkLog "new" "reader" 19797 10 (now env_ist)])
    "reader" 19797
  = Some (mkLog "new" "reader" 19797 10 (now env_ist)).
Proof.
  assert (H : Supabase.addReadingLog env_ist "new" (fun x => x) db_fresh
                "reader" 19797 10
              = ret (mkLog "new" "reader" 19797 10 (now env_ist),
                     mkDb (profiles db_fresh)
                       [mkLog "new" "reader" 19797 10 (now env_ist)]))
    by reflexivity.
  split; [exact H |].
  exact (proj1 (addReadingLog_then_getLogByDate env_ist "new" (fun x => x) db_fresh
                  "reader" 19797 10 _ _ H)).
Defined.

(** X2.  After the Supabase variant created an entry for a user and date,
    a second [addReadingLog] for the same user and date on the database it
    left never returns, whatever the clock, id, page count and
    interleaving of the second call: it throws the date-range message when
    the date has left the window by then, else the page-count message for
    a page count out of bounds, and else the duplicate message of the
    lookup. *)
Theorem addReadingLog_second_time (env : Env) (fresh : string)
    (other : Database -> Database) (db : Database)
    (uid : string) (d : Z) (p : Q) (data : LogEntry) (db' : Database)
    (env2 : Env) (fresh2 : string) (other2 : Database -> Database) (p2 : Q) :
  Supabase.addReadingLog env fresh other db uid d p = ret (data, db') ->
  Supabase.addReadingLog env2 fresh2 other2 db' uid d p2
  = throw (Error (if negb (isDateInRange env2 d 3) then MSG_DATE_RANGE
                  else if pages_out_of_bounds p2 then MSG_PAGES
                  else MSG_EXISTS_PRECHECK)).
Proof.
  intros H.
  pose proof (created_entry_alone env fresh other db uid d p data db' H)
    as Hfor.
  unfold Supabase.addReadingLog.
  rewrite Supabase_getLogByDate_entries, Hfor.
  destruct (isDateInRange env2 d 3); simpl; [| reflexivity].
  destruct (pages_out_of_bounds p2); reflexivity.
Qed.

Lemma addReadingLog_second_time_witness :
  Supabase.addReadingLog env_ist "new" (fun x => x) db_fresh "reader" 19797 10
  = ret (mkLog "new" "reader" 19797 10 (now env_ist),
         mkDb (profiles db_fresh) [mkLog "new" "reader" 19797 10 (now env_ist)]) /\
  Supabase.addReadingLog env_ist "again" (fun x => x)
    (mkDb (profiles db_fresh) [mkLog "new" "reader" 19797 10 (now env_ist)])
    "reader" 19797 25
  = throw (Error MSG_EXISTS_PRECHECK) /\
  Supabase.addReadingLog (mkEnv (now env_ist + 5 * MS_PER_DAY) (tzOffset env_ist))
    "again" (fun x => x)
    (mkDb (profiles db_fresh) [mkLog "new" "reader" 19797 10 (now env_ist)])
    "reader" 19797 25
  = throw (Error MSG_DATE_RANGE).
Proof.
  assert (H : Supabase.addReadingLog env_ist "new" (fun x => x) db_fresh
                "reader" 19797 10
              = ret (mkLog "new" "reader" 19797 10 (now env_ist),
                     mkDb (profiles db_fresh)
                       [mkLog "new" "reader" 19797 10 (now env_ist)]))
    by reflexivity.
  split; [exact H |]. split.
  - exact (addReadingLog_second_time env_ist "new" (fun x => x) db_fresh "reader"
             19797 10 _ _ env_ist "again" (fun x => x) 25 H).
  - exact (addReadingLog_second_time env_ist "new" (fun x => x) db_fresh "reader"
             19797 10 _ _ (mkEnv (now env_ist + 5 * MS_PER_DAY) (tzOffset env_ist))
             "again" (fun x => x) 25 H).
Defined.

(** ** Lists without repetition *)

Lemma NoDup_map_filter {A B : Type} (f : A -> B) (g : A -> bool) (l : list A) :
  NoDup (map f l) -> NoDup (map f (filter g l)).
Proof.
  induction l as [| a l IH]; simpl; intros H; [constructor |].
  inversion H as [| ? ? Ha Hl]; subst.
  destruct (g a); simpl; [| apply IH, Hl].
  constructor; [| apply IH, Hl].
  intros Hin. apply Ha. apply in_map_iff in Hin.
  destruct Hin as [x [E Hx]]. apply filter_In in Hx.
  rewrite <- E. apply in_map. tauto.
Qed.

Lemma NoDup_snoc {A : Type} (l : list A) (x : A) :
  NoDup (l ++ [x]) <-> NoDup l /\ ~ In x l.
Proof.
  split.
  - intros H. apply (Permutation_NoDup (Permutation_sym (Permutation_cons_append l x))) in H.
    inversion H; tauto.
  - intros [Hl Hx]. apply (Permutation_NoDup (Permutation_cons_append l x)).
    constructor; assumption.
Qed.

(** ** The Appwrite variant without its service *)

(** X4.  The Appwrite variant as the scripts wire it.  Each function takes
    [databases] from [window.databases]; the configuration script exports
    the service as [window.appwriteDatabases] and nothing assigns
    [window.databases], so every call of the service is a call on
    [undefined].  Whatever is stored: the lookups catch the [TypeError] and
    return null, the empty array or rank 0; [addReadingLog] and
    [updateReadingLog] still apply their tests and then throw the
    [TypeError], as [deleteReadingLog] does at once; and the dashboard
    computes its statistics from no entries. *)
Theorem Appwrite_without_databases (env : Env) (db : Database) :
  Appwrite.window "databases" = None /\
  Appwrite.window "appwriteDatabases" = Some Appwrite.TheDatabases /\
  (forall uid d, Appwrite.getLogByDate db uid d = None) /\
  (forall uid limit, Appwrite.getUserLogs db uid limit = []) /\
  (forall uid, Appwrite.getProfile db uid = None) /\
  (forall limit, Appwrite.getLeaderboard env db limit = []) /\
  (forall uid, Appwrite.getUserRank env db uid = Some 0) /\
  (forall fresh other uid d p,
     Appwrite.addReadingLog env fresh other db uid d p
     = throw (if negb (isDateInRange env d 3) then Error MSG_DATE_RANGE
              else if pages_out_of_bounds p then Error MSG_PAGES
              else TypeError)) /\
  (forall logId p,
     Appwrite.updateReadingLog env db logId p
     = throw (if pages_out_of_bounds p then Error MSG_PAGES else TypeError)) /\
  (forall logId, Appwrite.deleteReadingLog db logId = throw TypeError) /\
  (forall fuel uid,
     refreshLogs (Appwrite.getUserLogs db) fuel env uid
     = Some ([], mkStats 0 0 0 0 0)).
Proof.
  do 7 (split; [reflexivity |]). split; [| split; [| split]].
  - intros fresh other uid d p. unfold Appwrite.addReadingLog.
    destruct (isDateInRange env d 3); simpl; [| reflexivity].
    destruct (pages_out_of_bounds p); reflexivity.
  - intros logId p. unfold Appwrite.updateReadingLog.
    destruct (pages_out_of_bounds p); reflexivity.
  - reflexivity.
  - reflexivity.
Qed.

(** ** Deleting *)

Lemma filter_all {A : Type} (g : A -> bool) (l : list A) :
  (forall x, In x l -> g x = true) -> filter g l = l.
Proof.
  induction l as [| a l IH]; simpl; intros H; [reflexivity |].
  rewrite (H a (or_introl eq_refl)). f_equal. apply IH.
  intros x Hx. apply H. right. exact Hx.
Qed.

Lemma filter_split_perm {A : Type} (g : A -> bool) (l : list A) :
  Permutation (filter (fun x => negb (g x)) l ++ filter g l) l.
Proof.
  induction l as [| a l IH]; simpl; [constructor |].
  destruct (g a); simpl.
  - apply Permutation_sym. apply Permutation_cons_app.
    apply Permutation_sym. exact IH.
  - constructor. exact IH.
Qed.

(** X5.  [deleteReadingLog] of the Supabase variant always returns: it
    leaves no entry with the given id and leaves every other entry, in
    their order, and the profiles as they were.  For an id that no entry
    has it returns with the database unchanged, so deleting a second time
    changes nothing. *)
Theorem deleteReadingLog_effect (db : Database) (logId : string) :
  exists db',
    Supabase.deleteReadingLog db logId = ret db' /\
    profiles db' = profiles db /\
    (forall r, In r (reading_logs db') <->
               In r (reading_logs db) /\ entry_id r <> logId) /\
    (exists gone,
       Permutation (reading_logs db' ++ gone) (reading_logs db) /\
       forall r, In r gone -> entry_id r = logId) /\
    (~ In logId (map entry_id (reading_logs db)) -> db' = db) /\
    Supabase.deleteReadingLog db' logId = ret db'.
Proof.
  eexists. split; [reflexivity |]. simpl. split; [reflexivity |].
  assert (Hmem : forall r,
             In r (filter (fun r => negb (String.eqb (entry_id r) logId))
                     (reading_logs db))
             <-> In r (reading_logs db) /\ entry_id r <> logId).
  { intros r. rewrite filter_In, negb_true_iff. split; intros [Hr Hid].
    - split; [exact Hr |]. intros E. apply String.eqb_eq in E. congruence.
    - split; [exact Hr |]. apply String.eqb_neq, Hid. }
  split; [exact Hmem |]. split; [| split].
  - exists (filter (fun r => String.eqb (entry_id r) logId) (reading_logs db)).
    split.
    + apply (filter_split_perm (fun r => String.eqb (entry_id r) logId)).
    + intros r Hr. apply filter_In in Hr. apply String.eqb_eq. tauto.
  - intros Hout. rewrite filter_all.
    + destruct db; reflexivity.
    + intros r Hr. apply negb_true_iff, String.eqb_neq.
      intros E. apply Hout. rewrite <- E. apply in_map, Hr.
  - unfold Supabase.deleteReadingLog. simpl. rewrite filter_all; [reflexivity |].
    intros r Hr. apply Hmem in Hr. apply negb_true_iff, String.eqb_neq. tauto.
Qed.

Lemma deleteReadingLog_effect_witness :
  ~ In "gone" (map entry_id (reading_logs db_old_entry)) /\
  Supabase.deleteReadingLog db_old_entry "gone" = ret db_old_entry.
Proof.
  assert (H : ~ In "gone" (map entry_id (reading_logs db_old_entry))).
  { simpl. intros [E | [E | []]]; discriminate E. }
  split; [exact H |].
  destruct (deleteReadingLog_effect db_old_entry "gone")
    as [db' [Hdel [_ [_ [_ [Hsame _]]]]]].
  rewrite Hdel, (Hsame H). reflexivity.
Defined.

(** ** The life of an entry *)

Lemma update_by_id_absent (logId : string) (pages stamp : Z) (rows : list LogEntry) :
  ~ In logId (map entry_id rows) -> update_by_id logId pages stamp rows = rows.
Proof.
  induction rows as [| r rows IH]; simpl; intros H; [reflexivity |].
  destruct (String.eqb_spec (entry_id r) logId) as [E | NE]; [tauto |].
  f_equal. apply IH. tauto.
Qed.

Lemma filter_id_absent (logId : string) (rows : list LogEntry) :
  ~ In logId (map entry_id rows) ->
  filter (fun r => String.eqb (entry_id r) logId) rows = [] /\
  filter (fun r => negb (String.eqb (entry_id r) logId)) rows = rows.
Proof.
  induction rows as [| r rows IH]; simpl; intros H; [tauto |].
  destruct (String.eqb_spec (entry_id r) logId) as [E | NE]; [tauto |].
  simpl. destruct IH as [IH1 IH2]; [tauto |]. rewrite IH1, IH2. tauto.
Qed.

(** X6.  Create, fetch by date, update the pages, fetch, delete, fetch, in
    the Supabase variant: for a date in the window, page counts from 1 to
    1000, a user with a profile and no entry for the date, and an id not in
    use, every step returns; the first fetch gives the created entry, the
    second the entry with the new page count and the old id, user and
    date, the last gives nothing, and the database is again what it was. *)
Theorem log_round_trip (env : Env) (fresh : string) (db : Database)
    (uid : string) (d n n' : Z) :
  isDateInRange env d 3 = true ->
  1 <= n <= 1000 ->
  1 <= n' <= 1000 ->
  entries_for uid d (reading_logs db) = [] ->
  ~ In fresh (map entry_id (reading_logs db)) ->
  find_profile db uid <> None ->
  let data := mkLog fresh uid d n (now env) in
  let upd := mkLog fresh uid d n' (now env) in
  let db1 := mkDb (profiles db) (reading_logs db ++ [data]) in
  let db2 := mkDb (profiles db) (reading_logs db ++ [upd]) in
  Supabase.addReadingLog env fresh (fun x => x) db uid d (inject_Z n) = ret (data, db1) /\
  Supabase.getLogByDate db1 uid d = Some data /\
  Supabase.updateReadingLog env db1 fresh (inject_Z n') = ret (upd, db2) /\
  Supabase.getLogByDate db2 uid d = Some upd /\
  Supabase.deleteReadingLog db2 fresh = ret db /\
  Supabase.getLogByDate db uid d = None.
Proof.
  intros Hdate Hn Hn' Hnone Hfresh Hprofile data upd db1 db2.
  destruct (filter_id_absent fresh (reading_logs db) Hfresh) as [Hhit Hrest].
  assert (Hfor1 : entries_for uid d (reading_logs db1) = [data]).
  { unfold db1. simpl. rewrite entries_for_app, Hnone.
    apply (entries_for_self data). }
  assert (Hfor2 : entries_for uid d (reading_logs db2) = [upd]).
  { unfold db2. simpl. rewrite entries_for_app, Hnone.
    apply (entries_for_self upd). }
  assert (Hupdate : update_by_id fresh n' (now env) (reading_logs db1)
                    = reading_logs db2).
  { unfold db1, db2, update_by_id. simpl. rewrite map_app.
    fold (update_by_id fresh n' (now env) (reading_logs db)).
    rewrite (update_by_id_absent _ _ _ _ Hfresh). simpl.
    rewrite String.eqb_refl. reflexivity. }
  assert (Hfilter : filter (fun r => String.eqb (entry_id r) fresh) (reading_logs db2)
                    = [upd]).
  { unfold db2. simpl. rewrite filter_app, Hhit. simpl.
    rewrite String.eqb_refl. reflexivity. }
  assert (Hdelete : filter (fun r => negb (String.eqb (entry_id r) fresh))
                      (reading_logs db2) = reading_logs db).
  { unfold db2. simpl. rewrite filter_app, Hrest. simpl.
    rewrite String.eqb_refl. simpl. apply app_nil_r. }
  assert (Hex : existsb (fun r => String.eqb (user_id r) uid && (log_date r =? d))
                  (reading_logs db) = false)
    by (apply entries_for_existsb, Hnone).
  split; [| split; [| split; [| split; [| split]]]].
  - unfold Supabase.addReadingLog.
    rewrite Hdate, (pages_in_bounds_Z n Hn), Supabase_getLogByDate_entries, Hnone.
    simpl. unfold Supabase.insert_log.
    rewrite is_integer_inject_Z, Qfloor_Z, Hex. simpl.
    destruct (Z.leb_spec n 0); [lia |].
    destruct (find_profile db uid); [reflexivity | congruence].
  - rewrite Supabase_getLogByDate_entries, Hfor1. reflexivity.
  - unfold Supabase.updateReadingLog.
    rewrite (pages_in_bounds_Z n' Hn'), is_integer_inject_Z, Qfloor_Z.
    cbv beta iota zeta delta [negb].
    rewrite Hupdate, Hfilter. reflexivity.
  - rewrite Supabase_getLogByDate_entries, Hfor2. reflexivity.
  - unfold Supabase.deleteReadingLog. rewrite Hdelete.
    destruct db; reflexivity.
  - rewrite Supabase_getLogByDate_entries, Hnone. reflexivity.
Qed.

Lemma log_round_trip_witness :
  isDateInRange env_ist 19797 3 = true /\
  entries_for "reader" 19797 (reading_logs db_old_entry) = [] /\
  ~ In "new" (map entry_id (reading_logs db_old_entry)) /\
  find_profile db_old_entry "reader" <> None /\
  Supabase.deleteReadingLog
    (mkDb (profiles db_old_entry)
       (reading_logs db_old_entry ++ [mkLog "new" "reader" 19797 40 (now env_ist)]))
    "new"
  = ret db_old_entry.
Proof.
  assert (Hn : 1 <= 30 <= 1000) by lia.
  assert (Hn' : 1 <= 40 <= 1000) by lia.
  assert (Hfresh : ~ In "new" (map entry_id (reading_logs db_old_entry))).
  { simpl. intros [E | [E | []]]; discriminate E. }
  assert (Hprofile : find_profile db_old_entry "reader" <> None)
    by (vm_compute; discriminate).
  split; [reflexivity |]. split; [reflexivity |].
  split; [exact Hfresh |]. split; [exact Hprofile |].
  exact (proj1 (proj2 (proj2 (proj2 (proj2
           (log_round_trip env_ist "new" db_old_entry "reader" 19797 30 40
              eq_refl Hn Hn' eq_refl Hfresh Hprofile)))))).
Defined.

(** ** Streaks as runs of days *)


Lemma sorted_dates_le (logs : list LogEntry) :
  StronglySorted Z.le (Array_sort Z.sub (map log_date logs)).
Proof.
  apply (StronglySorted_weaken (key_le (fun x : Z => x))).
  - unfold key_le. intros a b H. exact H.
  - apply Array_sort_sorted. intros a b. reflexivity.
Qed.











(** ** Bounds on the statistics *)






Lemma sum_pages_bounds (logs : list LogEntry) (lo hi : Z) :
  (forall e, In e logs -> lo <= pages_read e <= hi) ->
  lo * Z.of_nat (List.length logs) <= sum_pages logs
  <= hi * Z.of_nat (List.length logs).
Proof.
  induction logs as [| e logs IH]; intros H; [simpl; lia |].
  cbn [sum_pages fold_right List.length]. fold (sum_pages logs).
  rewrite Nat2Z.inj_succ.
  specialize (H e (or_introl eq_refl)) as He.
  assert (IH' : lo * Z.of_nat (List.length logs) <= sum_pages logs
                <= hi * Z.of_nat (List.length logs)).
  { apply IH. intros x Hx. apply H. right. exact Hx. }
  lia.
Qed.

Lemma Math_round_between (a b lo hi : Z) :
  0 < b -> lo * b <= a <= hi * b -> lo <= Math_round (js_div a b) <= hi.
Proof.
  intros Hb [Hlo Hhi].
  destruct (Math_round_bounds (js_div a b)) as [Blo Bhi].
  assert (Hb' : (0 < inject_Z b)%Q).
  { change 0%Q with (inject_Z 0). rewrite <- Zlt_Qlt. exact Hb. }
  assert (Hx1 : (inject_Z lo <= js_div a b)%Q).
  { unfold js_div. apply Qle_shift_div_l; [exact Hb' |].
    rewrite <- inject_Z_mult, <- Zle_Qle. exact Hlo. }
  assert (Hx2 : (js_div a b <= inject_Z hi)%Q).
  { unfold js_div. apply Qle_shift_div_r; [exact Hb' |].
    rewrite <- inject_Z_mult, <- Zle_Qle. exact Hhi. }
  assert (H1 : (inject_Z lo < inject_Z (Math_round (js_div a b) + 1))%Q).
  { rewrite inject_Z_plus. change (inject_Z 1) with 1%Q. lra. }
  assert (H2 : (inject_Z (Math_round (js_div a b)) < inject_Z (hi + 1))%Q).
  { rewrite inject_Z_plus. change (inject_Z 1) with 1%Q. lra. }
  rewrite <- Zlt_Qlt in H1, H2. lia.
Qed.

(** X9.  The average that [calculateStats] returns for a non-empty
    collection lies between the smallest and the largest page count of the
    entries, and the total between that many times the number of entries;
    with page counts from 1 to 1000 the average is from 1 to 1000. *)
Theorem calculateStats_avgPages_between (fuel : nat) (env : Env)
    (logs : list LogEntry) (lo hi : Z) :
  (List.length logs < fuel)%nat ->
  logs <> [] ->
  (forall e, In e logs -> lo <= pages_read e <= hi) ->
  exists stats,
    calculateStats fuel env logs = Some stats /\
    1 <= daysLogged stats /\
    lo * daysLogged stats <= totalPages stats <= hi * daysLogged stats /\
    lo <= avgPages stats <= hi.
Proof.
  intros Hfuel Hne Hpages.
  destruct (calculateStats_returns fuel env logs Hfuel)
    as [stats [Hst [Htotal [Hdays Havg]]]].
  exists stats. split; [exact Hst |].
  pose proof (sum_pages_bounds logs lo hi Hpages) as Hsum.
  assert (Hpos : 0 < Z.of_nat (List.length logs)).
  { destruct logs; [contradiction | simpl; lia]. }
  rewrite Hdays, Htotal. split; [lia |]. split; [exact Hsum |].
  rewrite Havg. destruct logs as [| e logs']; [contradiction |].
  apply Math_round_between; assumption.
Qed.

Lemma calculateStats_avgPages_between_witness :
  (List.length logs_three_days < 4)%nat /\
  logs_three_days <> [] /\
  (forall e, In e logs_three_days -> 10 <= pages_read e <= 30) /\
  exists stats,
    calculateStats 4 env_ist logs_three_days = Some stats /\
    1 <= daysLogged stats /\
    10 * daysLogged stats <= totalPages stats <= 30 * daysLogged stats /\
    10 <= avgPages stats <= 30.
Proof.
  assert (Hlen : (List.length logs_three_days < 4)%nat) by (simpl; lia).
  assert (Hne : logs_three_days <> []) by discriminate.
  assert (Hp : forall e, In e logs_three_days -> 10 <= pages_read e <= 30).
  { intros e He. simpl in He.
    repeat (destruct He as [<- | He]; [simpl; lia |]). contradiction. }
  repeat (split; [assumption |]).
  exact (calculateStats_avgPages_between 4 env_ist logs_three_days 10 30 Hlen Hne Hp).
Defined.

(** ** The order of the entries *)

Lemma sorted_perm_unique (l1 : list Z) :
  forall l2,
    StronglySorted Z.le l1 -> StronglySorted Z.le l2 -> Permutation l1 l2 ->
    l1 = l2.
Proof.
  induction l1 as [| a l1 IH]; intros l2 H1 H2 Hp.
  - apply Permutation_nil in Hp. congruence.
  - destruct l2 as [| b l2].
    + apply Permutation_sym, Permutation_nil in Hp. discriminate.
    + inversion H1 as [| ? ? H1' Ha]; subst.
      inversion H2 as [| ? ? H2' Hb]; subst.
      rewrite Forall_forall in Ha, Hb.
      assert (E : a = b).
      { assert (Hab : In a (b :: l2))
          by (apply (Permutation_in _ Hp); left; reflexivity).
        assert (Hba : In b (a :: l1))
          by (apply (Permutation_in _ (Permutation_sym Hp)); left; reflexivity).
        destruct Hab as [E | Hab]; [congruence |].
        destruct Hba as [E | Hba]; [congruence |].
        specialize (Ha _ Hba). specialize (Hb _ Hab). lia. }
      subst b. f_equal. apply IH; try assumption.
      exact (Permutation_cons_inv Hp).
Qed.

Lemma logged_perm (logs logs' : list LogEntry) (d : Z) :
  Permutation logs logs' -> logged logs d = logged logs' d.
Proof.
  intros Hp. apply eq_true_iff_eq. rewrite !logged_In.
  split; apply Permutation_in;
    [apply Permutation_map, Hp | apply Permutation_map, Permutation_sym, Hp].
Qed.

Lemma sum_pages_perm (logs logs' : list LogEntry) :
  Permutation logs logs' -> sum_pages logs = sum_pages logs'.
Proof.
  unfold sum_pages.
  induction 1 as [| x l l' _ IH | x y l | l l' l'' _ IH1 _ IH2]; simpl; lia.
Qed.

Lemma calculateStreaks_perm (fuel : nat) (env : Env) (logs logs' : list LogEntry) :
  Permutation logs logs' ->
  (List.length logs < fuel)%nat ->
  calculateStreaks fuel env logs = calculateStreaks fuel env logs'.
Proof.
  intros Hp Hfuel.
  assert (Hfuel' : (List.length logs' < fuel)%nat)
    by (rewrite <- (Permutation_length Hp); exact Hfuel).
  destruct (calculateStreaks_returns fuel env logs Hfuel)
    as [cur [longest [Hst [Hcur [Hall Hstop]]]]].
  destruct (calculateStreaks_returns fuel env logs' Hfuel')
    as [cur' [longest' [Hst' [Hcur' [Hall' Hstop']]]]].
  destruct (calculateStreaks_longest_scan fuel env logs Hfuel) as [c Hscan].
  destruct (calculateStreaks_longest_scan fuel env logs' Hfuel') as [c' Hscan'].
  rewrite Hst in Hscan. rewrite Hst' in Hscan'.
  injection Hscan as _ Hl. injection Hscan' as _ Hl'.
  assert (Hsorted : Array_sort Z.sub (map log_date logs)
                    = Array_sort Z.sub (map log_date logs')).
  { apply sorted_perm_unique; try apply sorted_dates_le.
    eapply perm_trans; [apply Array_sort_perm |].
    eapply perm_trans; [apply Permutation_map, Hp |].
    apply Permutation_sym, Array_sort_perm. }
  assert (Hstart : walk_start env logs' = walk_start env logs).
  { unfold walk_start. rewrite (logged_perm logs logs' _ Hp). reflexivity. }
  rewrite Hstart in Hall', Hstop'.
  assert (Ecur : cur = cur').
  { apply (streak_count_unique logs (walk_start env logs)); try assumption.
    - intros k Hk. rewrite (logged_perm logs logs' _ Hp). apply Hall', Hk.
    - rewrite (logged_perm logs logs' _ Hp). exact Hstop'. }
  rewrite Hst, Hst', Ecur, Hl, Hl', Hsorted. reflexivity.
Qed.

Lemma calculateStats_perm (fuel : nat) (env : Env) (logs logs' : list LogEntry) :
  Permutation logs logs' ->
  (List.length logs < fuel)%nat ->
  calculateStats fuel env logs = calculateStats fuel env logs'.
Proof.
  intros Hp Hfuel.
  destruct logs as [| e l]; destruct logs' as [| e' l'].
  - reflexivity.
  - apply Permutation_nil in Hp. discriminate.
  - apply Permutation_sym, Permutation_nil in Hp. discriminate.
  - unfold calculateStats.
    rewrite <- (calculateStreaks_perm fuel env _ _ Hp Hfuel).
    rewrite !fold_left_sum_pages, <- (sum_pages_perm _ _ Hp),
      <- (Permutation_length Hp).
    reflexivity.
Qed.

(** X10.  [calculateStats] does not depend on the order in which the
    entries come: two collections with the same entries in any order give
    the same statistics, and the function returns for both. *)
Theorem calculateStats_order_independent (fuel : nat) (env : Env)
    (logs logs' : list LogEntry) :
  Permutation logs logs' ->
  (List.length logs < fuel)%nat ->
  exists stats,
    calculateStats fuel env logs = Some stats /\
    calculateStats fuel env logs' = Some stats.
Proof.
  intros Hp Hfuel.
  destruct (calculateStats_returns fuel env logs Hfuel) as [stats [Hst _]].
  exists stats. split; [exact Hst |].
  rewrite <- (calculateStats_perm fuel env _ _ Hp Hfuel). exact Hst.
Qed.

Lemma calculateStats_order_independent_witness :
  Permutation logs_three_days (rev logs_three_days) /\
  (List.length logs_three_days < 4)%nat /\
  exists stats,
    calculateStats 4 env_ist logs_three_days = Some stats /\
    calculateStats 4 env_ist (rev logs_three_days) = Some stats.
Proof.
  assert (Hp : Permutation logs_three_days (rev logs_three_days))
    by apply Permutation_rev.
  assert (Hlen : (List.length logs_three_days < 4)%nat) by (simpl; lia).
  split; [exact Hp |]. split; [exact Hlen |].
  exact (calculateStats_order_independent 4 env_ist _ _ Hp Hlen).
Defined.

(** ** A short history is fetched whole *)

Lemma firstn_whole {A : Type} (n : nat) (l : list A) :
  (List.length l <= n)%nat -> firstn n l = l.
Proof. intros H. apply firstn_all2, H. Qed.

(** X11.  When the user has at most as many entries as the limit (50
    when the limit is left out), [getUserLogs] of the Supabase variant
    returns every entry of the user, latest first, and the statistics that
    [refreshLogs] shows are those of the user's whole history. *)
Theorem getUserLogs_whole_history (db : Database) (uid : string)
    (limit : option nat) :
  (List.length (q_eq_user uid (reading_logs db)) <= default_arg 50%nat limit)%nat ->
  Supabase.getUserLogs db uid limit = q_order_date_desc (q_eq_user uid (reading_logs db)) /\
  Permutation (Supabase.getUserLogs db uid limit) (q_eq_user uid (reading_logs db)) /\
  (limit = None ->
   forall fuel env,
     (50 < fuel)%nat ->
     exists logs stats,
       refreshLogs (Supabase.getUserLogs db) fuel env uid = Some (logs, stats) /\
       calculateStats fuel env (q_eq_user uid (reading_logs db)) = Some stats).
Proof.
  intros Hlen.
  assert (Hall : Supabase.getUserLogs db uid limit
                 = q_order_date_desc (q_eq_user uid (reading_logs db))).
  { unfold Supabase.getUserLogs, q_limit. apply firstn_whole.
    unfold q_order_date_desc. rewrite Array_sort_length. exact Hlen. }
  assert (Hperm : Permutation (Supabase.getUserLogs db uid limit)
                    (q_eq_user uid (reading_logs db))).
  { rewrite Hall. apply Array_sort_perm. }
  split; [exact Hall |]. split; [exact Hperm |].
  intros -> fuel env Hfuel. simpl in Hlen.
  assert (Hfuel' : (List.length (Supabase.getUserLogs db uid None) < fuel)%nat).
  { rewrite (Permutation_length Hperm). lia. }
  destruct (calculateStats_returns fuel env _ Hfuel') as [stats [Hs _]].
  pose proof (calculateStats_perm fuel env _ _ Hperm Hfuel') as Hs'.
  rewrite Hs in Hs'. symmetry in Hs'.
  exists (Supabase.getUserLogs db uid None), stats.
  unfold refreshLogs.
  rewrite Hs. repeat split. exact Hs'.
Qed.

Lemma getUserLogs_whole_history_witness :
  (List.length (q_eq_user "reader" (reading_logs db_old_entry))
   <= default_arg 50%nat None)%nat /\
  Supabase.getUserLogs db_old_entry "reader" None
  = q_order_date_desc (q_eq_user "reader" (reading_logs db_old_entry)).
Proof.
  assert (H : (List.length (q_eq_user "reader" (reading_logs db_old_entry))
               <= default_arg 50%nat None)%nat) by (vm_compute; lia).
  split; [exact H |].
  exact (proj1 (getUserLogs_whole_history db_old_entry "reader" None H)).
Defined.

(** ** The rank of a user *)

Lemma with_ranks_firstn (l : list Entry) :
  forall i n, with_ranks i (firstn n l) = firstn n (with_ranks i l).
Proof.
  induction l as [| e l IH]; intros i [| n]; simpl; try reflexivity.
  rewrite IH. reflexivity.
Qed.

Lemma with_ranks_ids (l : list Entry) :
  forall i, map userId (with_ranks i l) = map userId l.
Proof. induction l as [| e l IH]; intros i; simpl; [| rewrite IH]; reflexivity. Qed.

Lemma find_nth {A : Type} (p : A -> bool) (l : list A) (x : A) :
  find p l = Some x -> exists k, nth_error l k = Some x /\ p x = true.
Proof.
  induction l as [| a l IH]; simpl; [discriminate |].
  destruct (p a) eqn:E.
  - intros H. injection H as <-. exists 0%nat. tauto.
  - intros H. destruct (IH H) as [k Hk]. exists (S k). exact Hk.
Qed.

Lemma find_none_ids (uid : string) (l : list Entry) :
  find (fun entry => String.eqb (userId entry) uid) l = None
  <-> ~ In uid (map userId l).
Proof.
  induction l as [| a l IH]; simpl; [tauto |].
  destruct (String.eqb_spec (userId a) uid) as [E | NE].
  - split; [discriminate | tauto].
  - rewrite IH. tauto.
Qed.

Lemma find_by_unique_id (l : list Entry) (e : Entry) :
  NoDup (map userId l) -> In e l ->
  find (fun entry => String.eqb (userId entry) (userId e)) l = Some e.
Proof.
  induction l as [| a l IH]; simpl; intros Hnd Hin; [contradiction |].
  inversion Hnd as [| ? ? Ha Hl]; subst.
  destruct Hin as [-> | Hin]; [rewrite String.eqb_refl; reflexivity |].
  destruct (String.eqb_spec (userId a) (userId e)) as [E | NE].
  - exfalso. apply Ha. rewrite E. apply in_map, Hin.
  - apply IH; assumption.
Qed.

(** The sorted totals, with the names filled in, before they are cut and
    ranked. *)
Lemma Supabase_getLeaderboard_cut (env : Env) (db : Database) :
  exists sorted,
    NoDup (map userId sorted) /\
    forall k, Supabase.getLeaderboard env db (Some k)
              = firstn k (with_ranks 0 sorted).
Proof.
  set (data := Supabase.inner_join db
                 (q_gte_date (formatDateForInput env (getMonthStart env))
                    (reading_logs db))).
  set (totals := aggregate Supabase.j_user_id Supabase.j_pages_read
                   Supabase.first_seen data).
  exists (Array_sort by_total_desc totals). split.
  - pose proof (aggregate_totals Supabase.j_user_id Supabase.j_pages_read
                  Supabase.first_seen (fun _ => eq_refl) (fun _ => eq_refl) data)
      as [Hnd _].
    apply (Permutation_NoDup
             (Permutation_map userId
                (Permutation_sym (Array_sort_perm by_total_desc totals)))).
    exact Hnd.
  - intros k. rewrite <- with_ranks_firstn.
    unfold Supabase.getLeaderboard. fold data. unfold default_arg.
    destruct data eqn:E; [| reflexivity].
    unfold totals. simpl. destruct k; reflexivity.
Qed.

(** What [getUserRank] does on a ranked list of which it reads the first
    [cap] entries. *)
Lemma rank_in_cut (sorted : list Entry) (cap : nat) (uid : string) :
  NoDup (map userId sorted) ->
  let board := firstn cap (with_ranks 0 sorted) in
  let result := match find (fun entry => String.eqb (userId entry) uid) board with
                | Some userEntry => rank userEntry
                | None => Some 0
                end in
  (exists r, result = Some r /\ 0 <= r <= Z.of_nat cap /\
             (r = 0 <-> ~ In uid (map userId board))) /\
  (forall k e, (k <= cap)%nat ->
               In e (firstn k (with_ranks 0 sorted)) -> uid = userId e ->
               result = rank e).
Proof.
  intros Hnd board result. split.
  - unfold result.
    destruct (find _ board) as [e |] eqn:Efind.
    + destruct (find_nth _ _ _ Efind) as [k [Hk Hp]].
      apply String.eqb_eq in Hp.
      assert (Hlt : (k < List.length board)%nat)
        by (apply nth_error_Some; congruence).
      assert (Hcap : (List.length board <= cap)%nat)
        by (unfold board; apply firstn_le_length).
      assert (Hrank : rank e = Some (0 + Z.of_nat k + 1)).
      { apply (with_ranks_nth (firstn cap sorted) 0 k e).
        rewrite with_ranks_firstn. exact Hk. }
      exists (Z.of_nat k + 1). rewrite Hrank.
      split; [f_equal; lia |]. split; [lia |].
      split; [lia |]. intros Hout. exfalso. apply Hout.
      rewrite <- Hp. apply in_map. exact (nth_error_In _ _ Hk).
    + exists 0. split; [reflexivity |]. split; [lia |].
      split; [intros _; apply find_none_ids, Efind | reflexivity].
  - intros k e Hk He ->. unfold result.
    assert (Hin : In e board).
    { unfold board. rewrite <- (Nat.min_l k cap Hk), <- firstn_firstn in He.
      exact (firstn_incl _ _ _ He). }
    rewrite (find_by_unique_id board e); [reflexivity | | exact Hin].
    unfold board. rewrite <- firstn_map, with_ranks_ids.
    apply firstn_NoDup, Hnd.
Qed.

(** X12.  [getUserRank] of the Supabase variant returns 0 exactly for a
    user who is not among the first 100 of the ranking, and otherwise a
    rank from 1 to 100; for a user shown on a leaderboard of at most 100
    entries it returns the rank shown there. *)
Theorem getUserRank_consistent (env : Env) (db : Database) :
  (forall uid,
     exists r, Supabase.getUserRank env db uid = Some r /\ 0 <= r <= 100 /\
               (r = 0 <-> ~ In uid (map userId
                                      (Supabase.getLeaderboard env db (Some 100%nat))))) /\
  (forall n e, (n <= 100)%nat ->
               In e (Supabase.getLeaderboard env db (Some n)) ->
               Supabase.getUserRank env db (userId e) = rank e).
Proof.
  destruct (Supabase_getLeaderboard_cut env db) as [ss [Hs Hscut]].
  split.
  - intros uid. unfold Supabase.getUserRank. rewrite Hscut.
    destruct (proj1 (rank_in_cut ss 100 uid Hs)) as [r [Hr [Hb Hz]]].
    exists r. split; [exact Hr |]. split; [simpl in Hb; lia | exact Hz].
  - intros n e Hn He. unfold Supabase.getUserRank. rewrite Hscut in *.
    exact (proj2 (rank_in_cut ss 100 (userId e) Hs) n e Hn He eq_refl).
Qed.

Lemma getUserRank_consistent_witness :
  (2 <= 100)%nat /\
  In (mkEntry "C" (Some "Chitra") (Some "c.png") 50 (Some 2))
    (Supabase.getLeaderboard env_ist db_abc (Some 2%nat)) /\
  Supabase.getUserRank env_ist db_abc "C" = Some 2.
Proof.
  assert (Hn : (2 <= 100)%nat) by lia.
  assert (Hin : In (mkEntry "C" (Some "Chitra") (Some "c.png") 50 (Some 2))
                  (Supabase.getLeaderboard env_ist db_abc (Some 2%nat)))
    by (vm_compute; right; left; reflexivity).
  split; [exact Hn |]. split; [exact Hin |].
  exact (proj2 (getUserRank_consistent env_ist db_abc) 2%nat _ Hn Hin).
Defined.

(** ** No page lost, none counted twice *)

Lemma add_pages_sum (uid : string) (p : Z) (l : list Entry) :
  NoDup (map userId l) -> In uid (map userId l) ->
  sum_totals (add_pages uid p l) = sum_totals l + p.
Proof.
  unfold sum_totals, add_pages.
  induction l as [| e l IH]; simpl; intros Hnd Hin; [contradiction |].
  inversion Hnd as [| ? ? He Hl]; subst.
  destruct (String.eqb_spec (userId e) uid) as [E | NE].
  - simpl. assert (Hsame : map (fun e0 =>
                                  if String.eqb (userId e0) uid
                                  then mkEntry (userId e0) (username e0) (avatarUrl e0)
                                         (entryTotalPages e0 + p) (rank e0)
                                  else e0) l = l).
    { rewrite <- (map_id l) at 2. apply map_ext_in. intros x Hx.
      destruct (String.eqb_spec (userId x) uid) as [Ex | _]; [| reflexivity].
      exfalso. apply He. rewrite E, <- Ex. apply in_map, Hx. }
    rewrite Hsame. lia.
  - destruct Hin as [E | Hin]; [contradiction |].
    rewrite (IH Hl Hin). lia.
Qed.

Lemma sum_totals_app (l1 l2 : list Entry) :
  sum_totals (l1 ++ l2) = sum_totals l1 + sum_totals l2.
Proof. unfold sum_totals. induction l1 as [| e l1 IH]; simpl; lia. Qed.

Lemma sum_totals_core (l1 l2 : list Entry) :
  map core l1 = map core l2 -> sum_totals l1 = sum_totals l2.
Proof.
  unfold sum_totals. revert l2.
  induction l1 as [| a l1 IH]; intros [| b l2] H; simpl in *;
    try discriminate; [reflexivity |].
  unfold core at 1 3 in H. injection H as _ Ht Hrest.
  rewrite (IH l2 Hrest). lia.
Qed.

Lemma sum_totals_perm (l1 l2 : list Entry) :
  Permutation l1 l2 -> sum_totals l1 = sum_totals l2.
Proof.
  unfold sum_totals.
  induction 1 as [| x l l' _ IH | x y l | l l' l'' _ IH1 _ IH2]; simpl; lia.
Qed.

Section AggregateSum.
Context {Row : Type}.
Variable row_user : Row -> string.
Variable row_pages : Row -> Z.
Variable first_seen : Row -> Entry.
Hypothesis first_seen_user : forall r, userId (first_seen r) = row_user r.
Hypothesis first_seen_total : forall r, entryTotalPages (first_seen r) = 0.

Lemma aggregate_fold_sum (rows : list Row) :
  forall pairs acc,
    totals_of pairs acc ->
    sum_totals (fold_left (aggregate_step row_user row_pages first_seen) rows acc)
    = sum_totals acc + fold_right (fun r s => row_pages r + s) 0 rows.
Proof.
  induction rows as [| r rows IH]; intros pairs acc Hacc; simpl; [lia |].
  rewrite (IH (pairs ++ [(row_user r, row_pages r)])).
  - assert (Hstep : sum_totals (aggregate_step row_user row_pages first_seen acc r)
                    = sum_totals acc + row_pages r).
    { destruct Hacc as [Hnd [Hids _]]. unfold aggregate_step.
      destruct (has_user (row_user r) acc) eqn:Hhas.
      - apply add_pages_sum; [exact Hnd | apply has_user_In, Hhas].
      - assert (Hnew : ~ In (row_user r) (map userId acc)).
        { intros H. apply has_user_In in H. congruence. }
        rewrite add_pages_sum.
        + rewrite sum_totals_app. unfold sum_totals at 2. simpl.
          rewrite first_seen_total. lia.
        + rewrite map_app. simpl. rewrite first_seen_user.
          apply NoDup_snoc. tauto.
        + rewrite map_app, in_app_iff. simpl. rewrite first_seen_user. tauto. }
    rewrite Hstep. lia.
  - apply aggregate_step_totals; assumption.
Qed.

Lemma aggregate_sum (rows : list Row) :
  sum_totals (aggregate row_user row_pages first_seen rows)
  = fold_right (fun r s => row_pages r + s) 0 rows.
Proof.
  unfold aggregate. rewrite (aggregate_fold_sum rows [] []); [reflexivity |].
  unfold totals_of. simpl. repeat split; try tauto. constructor.
Qed.
End AggregateSum.

Lemma inner_join_sum (db : Database) (logs : list LogEntry) :
  (forall r, In r logs -> find_profile db (user_id r) <> None) ->
  fold_right (fun j s => Supabase.j_pages_read j + s) 0 (Supabase.inner_join db logs)
  = sum_pages logs.
Proof.
  unfold Supabase.inner_join, sum_pages.
  induction logs as [| r logs IH]; intros Hfk; simpl; [reflexivity |].
  destruct (find_profile db (user_id r)) eqn:E.
  - simpl. rewrite IH; [reflexivity |]. intros x Hx. apply Hfk. right. exact Hx.
  - exfalso. apply (Hfk r); [left; reflexivity | exact E].
Qed.

(** X13.  When the limit is at least the number of users with entries in
    the month and every log is owned by a profile, the totals on the
    leaderboard of the Supabase variant add up to the pages of the entries
    of the month. *)
Theorem getLeaderboard_conserves_pages (env : Env) (db : Database)
    (limit : option nat) :
  (forall r, In r (reading_logs db) -> find_profile db (user_id r) <> None) ->
  (List.length (nodup string_dec (map user_id (this_month env db)))
   <= default_arg 10%nat limit)%nat ->
  sum_totals (Supabase.getLeaderboard env db limit) = sum_pages (this_month env db).
Proof.
  intros Hfk Hlimit.
  assert (Hfk' : forall r, In r (this_month env db) ->
                           find_profile db (user_id r) <> None).
  { intros r Hr. apply Hfk. unfold this_month in Hr. apply filter_In in Hr. tauto. }
  set (data := Supabase.inner_join db (this_month env db)).
  set (totals := aggregate Supabase.j_user_id Supabase.j_pages_read
                   Supabase.first_seen data).
  assert (Hshape : Supabase.getLeaderboard env db limit
                   = with_ranks 0 (firstn (default_arg 10%nat limit)
                                     (Array_sort by_total_desc totals))).
  { unfold Supabase.getLeaderboard. rewrite q_gte_month_start. fold data.
    destruct data eqn:E; [| reflexivity].
    unfold totals. simpl. destruct (default_arg 10%nat limit); reflexivity. }
  assert (Htot : totals_of
                   (map (fun j => (Supabase.j_user_id j, Supabase.j_pages_read j)) data)
                   totals)
    by (apply aggregate_totals; intros r; reflexivity).
  destruct Htot as [Hnd [Hids _]].
  assert (Hcount : List.length totals
                   = List.length (nodup string_dec (map user_id (this_month env db)))).
  { rewrite <- (length_map userId totals).
    apply Permutation_length, NoDup_Permutation;
      [exact Hnd | apply NoDup_nodup |].
    intros uid. rewrite nodup_In, Hids. unfold data.
    rewrite inner_join_pairs by exact Hfk'.
    unfold user_pages. rewrite map_map. simpl. reflexivity. }
  rewrite Hshape, (sum_totals_core _ _ (with_ranks_core _ 0)).
  rewrite firstn_whole by (rewrite Array_sort_length, Hcount; exact Hlimit).
  rewrite (sum_totals_perm _ _ (Array_sort_perm by_total_desc totals)).
  unfold totals.
  rewrite (aggregate_sum Supabase.j_user_id Supabase.j_pages_read
             Supabase.first_seen (fun _ => eq_refl) (fun _ => eq_refl)).
  apply inner_join_sum, Hfk'.
Qed.

Lemma getLeaderboard_conserves_pages_witness :
  (forall r, In r (reading_logs db_abc) -> find_profile db_abc (user_id r) <> None) /\
  (List.length (nodup string_dec (map user_id (this_month env_ist db_abc)))
   <= default_arg 10%nat None)%nat /\
  sum_totals (Supabase.getLeaderboard env_ist db_abc None)
  = sum_pages (this_month env_ist db_abc).
Proof.
  assert (Hfk : forall r, In r (reading_logs db_abc) ->
                          find_profile db_abc (user_id r) <> None).
  { intros r Hr. simpl in Hr.
    repeat (destruct Hr as [<- | Hr]; [discriminate |]). contradiction. }
  assert (Hl : (List.length (nodup string_dec
                               (map user_id (this_month env_ist db_abc)))
                <= default_arg 10%nat None)%nat) by (vm_compute; lia).
  split; [exact Hfk |]. split; [exact Hl |].
  exact (getLeaderboard_conserves_pages env_ist db_abc None Hfk Hl).
Defined.

(** ** The calendar *)

Ltac div_lia := Z.to_euclidean_division_equations; lia.

(** The civil date of a day count is a date of the calendar, and its day
    count is the one it came from. *)
Lemma civil_round_trip (z : Z) :
  let '(y, m, d) := civil_from_days z in
  days_from_civil y m d = z /\ 1 <= m <= 12 /\ 1 <= d <= 31.
Proof.
  unfold civil_from_days. cbv beta iota zeta.
  set (era := (z + 719468) / 146097).
  set (doe := z + 719468 - era * 146097).
  assert (Hdoe : 0 <= doe < 146097) by (subst doe era; div_lia).
  assert (Hz : z = era * 146097 + doe - 719468) by (subst doe; lia).
  clearbody doe. clearbody era.
  set (yoe := (doe - doe / 1460 + doe / 36524 - doe / 146096) / 365).
  assert (Hyoe : 0 <= yoe <= 399) by (subst yoe; div_lia).
  set (doy := doe - (365 * yoe + yoe / 4 - yoe / 100)).
  assert (Hdoy : 0 <= doy <= 365) by (subst doy yoe; div_lia).
  assert (Hdoe' : doe = yoe * 365 + yoe / 4 - yoe / 100 + doy) by (subst doy; lia).
  clearbody doy. clearbody yoe.
  set (mp := (5 * doy + 2) / 153).
  assert (Hmp : 0 <= mp <= 11 /\ 1 <= doy - (153 * mp + 2) / 5 + 1 <= 31)
    by (subst mp; div_lia).
  clearbody mp. unfold days_from_civil. cbv beta iota zeta.
  destruct (Z.ltb_spec mp 10).
  - destruct (Z.leb_spec (mp + 3) 2); [lia |].
    destruct (Z.ltb_spec 2 (mp + 3)); [| lia].
    replace (mp + 3 - 3) with mp by lia.
    replace ((yoe + era * 400) / 400) with era by div_lia.
    replace (yoe + era * 400 - era * 400) with yoe by lia.
    split; lia.
  - destruct (Z.leb_spec (mp - 9) 2); [| lia].
    destruct (Z.ltb_spec 2 (mp - 9)); [lia |].
    replace (mp - 9 + 9) with mp by lia.
    replace (yoe + era * 400 + 1 - 1) with (yoe + era * 400) by lia.
    replace ((yoe + era * 400) / 400) with era by div_lia.
    replace (yoe + era * 400 - era * 400) with yoe by lia.
    split; lia.
Qed.

Lemma days_from_civil_first (y m d : Z) :
  days_from_civil y m 1 = days_from_civil y m d - (d - 1).
Proof. unfold days_from_civil. cbv zeta. lia. Qed.

Lemma month_facts (env : Env) :
  month_first_day env = getToday env - (getDaysPassedThisMonth env - 1) /\
  1 <= getDaysPassedThisMonth env <= 31.
Proof.
  unfold month_first_day, getDaysPassedThisMonth, getToday, formatDateForInput.
  pose proof (civil_round_trip (localDay env (now env))) as H.
  destruct (civil_from_days (localDay env (now env))) as [[y m] d].
  destruct H as [Hback [_ Hd]].
  rewrite (days_from_civil_first y m d), Hback. split; [reflexivity | exact Hd].
Qed.

(** X14.  [getMonthStart] falls on a day on or before today and at most
    30 days before it, whatever the clock and the offset from UTC, and
    [getDaysPassedThisMonth] is the number of days from that day to today,
    both included: a number from 1 to 31. *)
Theorem getMonthStart_bounds (env : Env) :
  let start := formatDateForInput env (getMonthStart env) in
  getToday env - 30 <= start <= getToday env /\
  getDaysPassedThisMonth env = getToday env - start + 1 /\
  1 <= getDaysPassedThisMonth env <= 31.
Proof.
  intros start. unfold start. rewrite month_start_day.
  destruct (month_facts env) as [E Hd]. rewrite E. lia.
Qed.

(** ** The monthly progress *)

Lemma Set_add_NoDup (s : list Z) (x : Z) : NoDup s -> NoDup (Set_add s x).
Proof.
  intros H. unfold Set_add. destruct (Set_has s x) eqn:E; [exact H |].
  apply NoDup_snoc. split; [exact H |].
  intros Hin. apply Set_has_In in Hin. congruence.
Qed.

Lemma Set_of_NoDup (l : list Z) : NoDup (Set_of l).
Proof.
  unfold Set_of.
  assert (H : forall s, NoDup s -> NoDup (fold_left Set_add l s)).
  { induction l as [| x l IH]; intros s Hs; simpl; [exact Hs |].
    apply IH, Set_add_NoDup, Hs. }
  apply H. constructor.
Qed.

(** As many days as a list without repetition can hold between two days. *)
Lemma NoDup_days_between (l : list Z) (lo hi : Z) :
  NoDup l -> (forall x, In x l -> lo <= x <= hi) -> lo <= hi + 1 ->
  Z.of_nat (List.length l) <= hi - lo + 1.
Proof.
  intros Hnd Hin Hlo.
  set (days := map (fun i => lo + Z.of_nat i) (seq 0 (Z.to_nat (hi - lo + 1)))).
  assert (Hincl : incl l days).
  { intros x Hx. specialize (Hin x Hx). unfold days. apply in_map_iff.
    exists (Z.to_nat (x - lo)). split; [lia |]. apply in_seq. lia. }
  pose proof (NoDup_incl_length Hnd Hincl) as Hlen.
  unfold days in Hlen. rewrite length_map, length_seq in Hlen. lia.
Qed.

Lemma Math_round_within (x : Q) (lo hi : Z) :
  (inject_Z lo <= x)%Q -> (x <= inject_Z hi)%Q -> lo <= Math_round x <= hi.
Proof.
  intros Hx1 Hx2. destruct (Math_round_bounds x) as [Blo Bhi].
  assert (H1 : (inject_Z lo < inject_Z (Math_round x + 1))%Q).
  { rewrite inject_Z_plus. change (inject_Z 1) with 1%Q. lra. }
  assert (H2 : (inject_Z (Math_round x) < inject_Z (hi + 1))%Q).
  { rewrite inject_Z_plus. change (inject_Z 1) with 1%Q. lra. }
  rewrite <- Zlt_Qlt in H1, H2. lia.
Qed.

Lemma js_div_between (a b lo hi : Z) :
  0 < b -> lo * b <= a <= hi * b ->
  (inject_Z lo <= js_div a b)%Q /\ (js_div a b <= inject_Z hi)%Q.
Proof.
  intros Hb [Hlo Hhi].
  assert (Hb' : (0 < inject_Z b)%Q).
  { change 0%Q with (inject_Z 0). rewrite <- Zlt_Qlt. exact Hb. }
  split; unfold js_div.
  - apply Qle_shift_div_l; [exact Hb' |].
    rewrite <- inject_Z_mult, <- Zle_Qle. exact Hlo.
  - apply Qle_shift_div_r; [exact Hb' |].
    rewrite <- inject_Z_mult, <- Zle_Qle. exact Hhi.
Qed.

(** X15.  The percentage that [updateProgress] shows is never negative
    and at most 100 times the number of entries it is given.  It is at
    most 100 when every entry is dated in the current month up to today;
    the entries it is given are the latest 50 of any month, for which that
    need not hold. *)
Theorem updateProgress_percent (env : Env) (userLogs : list LogEntry) :
  0 <= updateProgress env userLogs <= 100 * Z.of_nat (List.length userLogs) /\
  ((forall e, In e userLogs ->
              month_first_day env <= log_date e <= getToday env) ->
   updateProgress env userLogs <= 100).
Proof.
  destruct (month_facts env) as [Estart Hd].
  set (d := getDaysPassedThisMonth env) in *.
  set (a := Z.of_nat (List.length (Set_of (map log_date userLogs)))).
  assert (Ha : 0 <= a <= Z.of_nat (List.length userLogs)).
  { unfold a. pose proof (Set_of_length (map log_date userLogs)) as H.
    rewrite length_map in H. lia. }
  assert (Hshape : updateProgress env userLogs = Math_round (js_div a d * 100)%Q).
  { unfold updateProgress. fold d. fold a.
    destruct (Z.ltb_spec 0 d); [reflexivity | lia]. }
  rewrite Hshape. split.
  - destruct (js_div_between a d 0 (Z.of_nat (List.length userLogs)))
      as [H1 H2]; [lia | nia |].
    apply Math_round_within.
    + change (inject_Z 0) with 0%Q in *. lra.
    + rewrite inject_Z_mult. change (inject_Z 100) with 100%Q. lra.
  - intros Hmonth.
    assert (Hle : a <= d).
    { unfold a.
      pose proof (NoDup_days_between (Set_of (map log_date userLogs))
                    (month_first_day env) (getToday env)
                    (Set_of_NoDup _)) as H.
      assert (Hin : forall x, In x (Set_of (map log_date userLogs)) ->
                              month_first_day env <= x <= getToday env).
      { intros x Hx. apply (proj1 (Set_of_In _ _)) in Hx. apply in_map_iff in Hx.
        destruct Hx as [e [<- He]]. apply Hmonth, He. }
      specialize (H Hin ltac:(lia)). lia. }
    destruct (js_div_between a d 0 1) as [H1 H2]; [lia | lia |].
    apply (Math_round_within _ 0 100).
    + change (inject_Z 0) with 0%Q in *. lra.
    + change (inject_Z 1) with 1%Q in *. change (inject_Z 100) with 100%Q. lra.
Qed.

Lemma updateProgress_percent_witness :
  (forall e, In e logs_three_days ->
             month_first_day env_ist <= log_date e <= getToday env_ist) /\
  updateProgress env_ist logs_three_days <= 100.
Proof.
  assert (H : forall e, In e logs_three_days ->
                        month_first_day env_ist <= log_date e <= getToday env_ist).
  { intros e He. simpl in He.
    repeat (destruct He as [<- | He]; [vm_compute; split; discriminate |]).
    contradiction. }
  split; [exact H |].
  exact (proj2 (updateProgress_percent env_ist logs_three_days) H).
Defined.

(** Fifty days logged in a row up to 15 March: 50 distinct dates over 15
    days passed. *)
Example updateProgress_over_100 :
  updateProgress env_ist (Supabase.getUserLogs db_51_days "reader" None) = 333.
Proof. vm_compute. reflexivity. Qed.

(** ** The date picker and the window test *)

(** X16.  At UTC and east of it, [isDateInRange(d, n)] holds exactly for
    the days from [n] days ago to today; for [n = 3] these are the days
    between the [min] and the [max] that [setupDatePicker] gives the
    picker, and for any other day [addReadingLog] throws the date-range
    message in both variants. *)
Theorem datePicker_matches_window (env : Env) (d : Z) :
  0 <= tzOffset env < MS_PER_DAY ->
  let picker := setupDatePicker env in
  picker_value picker = getToday env /\
  picker_max picker = getToday env /\
  picker_min picker = getToday env - 3 /\
  (forall n, isDateInRange env d n = true <-> getToday env - n <= d <= getToday env) /\
  (isDateInRange env d 3 = true <-> picker_min picker <= d <= picker_max picker) /\
  (~ (picker_min picker <= d <= picker_max picker) ->
   forall fresh other db uid p,
     Supabase.addReadingLog env fresh other db uid d p = throw (Error MSG_DATE_RANGE) /\
     Appwrite.addReadingLog env fresh other db uid d p = throw (Error MSG_DATE_RANGE)).
Proof.
  intros Htz picker. unfold picker, setupDatePicker. simpl.
  rewrite getDaysAgo_local.
  assert (Hwin : forall n, isDateInRange env d n = true
                           <-> getToday env - n <= d <= getToday env)
    by (intros n; apply isDateInRange_east_of_UTC, Htz).
  split; [reflexivity |]. split; [reflexivity |]. split; [reflexivity |].
  split; [exact Hwin |]. split; [apply (Hwin 3) |].
  intros Hout fresh other db uid p.
  assert (E : isDateInRange env d 3 = false).
  { destruct (isDateInRange env d 3) eqn:E; [| reflexivity].
    apply Hwin in E. contradiction. }
  unfold Supabase.addReadingLog, Appwrite.addReadingLog. rewrite E.
  split; reflexivity.
Qed.

Lemma datePicker_matches_window_witness :
  0 <= tzOffset env_ist < MS_PER_DAY /\
  (isDateInRange env_ist 19795 3 = true <->
   picker_min (setupDatePicker env_ist) <= 19795
   <= picker_max (setupDatePicker env_ist)).
Proof.
  assert (H : 0 <= tzOffset env_ist < MS_PER_DAY) by (vm_compute; split; congruence).
  split; [exact H |].
  exact (proj1 (proj2 (proj2 (proj2 (proj2
           (datePicker_matches_window env_ist 19795 H)))))).
Defined.

(** ** Ordinals *)

Lemma forall_below (P : Z -> bool) (n : nat) :
  forallb P (map Z.of_nat (seq 0 n)) = true ->
  forall v, 0 <= v < Z.of_nat n -> P v = true.
Proof.
  intros H v Hv. rewrite forallb_forall in H. apply H.
  apply in_map_iff. exists (Z.to_nat v). split; [lia |]. apply in_seq. lia.
Qed.

Lemma ordinal_suffix_two_digits (v : Z) :
  0 <= v < 100 -> ordinal_suffix v = Some (english_suffix v).
Proof.
  intros Hv.
  pose proof (forall_below
                (fun v => match ordinal_suffix v with
                          | Some s => String.eqb s (english_suffix v)
                          | None => false
                          end) 100 ltac:(vm_compute; reflexivity) v Hv) as H.
  simpl in H. destruct (ordinal_suffix v) as [s |]; [| discriminate].
  apply String.eqb_eq in H. congruence.
Qed.

Lemma ordinal_suffix_negative (v : Z) :
  0 <= v < 100 -> ordinal_suffix (- v) = Some "th".
Proof.
  intros Hv.
  pose proof (forall_below
                (fun v => match ordinal_suffix (- v) with
                          | Some s => String.eqb s "th"
                          | None => false
                          end) 100 ltac:(vm_compute; reflexivity) v Hv) as H.
  simpl in H. destruct (ordinal_suffix (- v)) as [s |]; [| discriminate].
  apply String.eqb_eq in H. congruence.
Qed.

Lemma english_suffix_mod (num : Z) :
  english_suffix (num mod 100) = english_suffix num.
Proof.
  unfold english_suffix.
  rewrite Z.mod_mod by lia.
  replace ((num mod 100) mod 10) with (num mod 10) by div_lia.
  reflexivity.
Qed.

(** X17.  [formatOrdinal] writes a whole number that is not negative with
    its English ordinal suffix: "th" when the last two digits are 11, 12
    or 13, otherwise "st", "nd", "rd" for a last digit 1, 2, 3 and "th"
    for the rest.  A negative number gets "th". *)
Theorem formatOrdinal_english (num : Z) :
  (0 <= num ->
   formatOrdinal num = (number_to_string num ++ english_suffix num)%string) /\
  (num < 0 -> formatOrdinal num = (number_to_string num ++ "th")%string).
Proof.
  unfold formatOrdinal. cbv zeta. fold (ordinal_suffix (Z.rem num 100)). split.
  - intros Hnum. rewrite Z.rem_mod_nonneg by lia.
    rewrite ordinal_suffix_two_digits by (apply Z.mod_pos_bound; lia).
    rewrite english_suffix_mod. reflexivity.
  - intros Hnum.
    replace (Z.rem num 100) with (- Z.rem (- num) 100)
      by (rewrite Z.rem_opp_l by lia; lia).
    rewrite ordinal_suffix_negative; [reflexivity |].
    rewrite Z.rem_mod_nonneg by lia. apply Z.mod_pos_bound. lia.
Qed.

Lemma formatOrdinal_english_witness :
  0 <= 112 /\ formatOrdinal 112 = "112th" /\
  -3 < 0 /\ formatOrdinal (-3) = "-3th".
Proof.
  assert (H1 : 0 <= 112) by lia.
  assert (H2 : -3 < 0) by lia.
  split; [exact H1 |]. split; [exact (proj1 (formatOrdinal_english 112) H1) |].
  split; [exact H2 |]. exact (proj2 (formatOrdinal_english (-3)) H2).
Defined.

Example formatOrdinal_examples :
  map formatOrdinal [1; 2; 3; 4; 11; 12; 13; 21; 22; 23; 101; 111]
  = ["1st"; "2nd"; "3rd"; "4th"; "11th"; "12th"; "13th"; "21st"; "22nd"; "23rd";
     "101st"; "111th"].
Proof. reflexivity. Qed.

(** ** The entries of the current month *)

Lemma unique_user_dates (uid : string) (rows : list LogEntry) :
  unique_user_date rows -> NoDup (map log_date (q_eq_user uid rows)).
Proof.
  unfold unique_user_date, q_eq_user.
  induction rows as [| r rows IH]; simpl; intros H; [constructor |].
  inversion H as [| ? ? Hr Hrows]; subst.
  destruct (String.eqb_spec (user_id r) uid) as [E | NE]; [| apply IH, Hrows].
  simpl. constructor; [| apply IH, Hrows].
  intros Hin. apply Hr. apply in_map_iff in Hin.
  destruct Hin as [x [Ed Hx]]. apply filter_In in Hx. destruct Hx as [Hx Eu].
  apply String.eqb_eq in Eu. apply in_map_iff. exists x.
  split; [congruence | exact Hx].
Qed.

(** X18.  [getCurrentMonthLogs] of the Supabase variant returns exactly
    the user's entries dated from the first day of the current month to
    today, latest first; with at most one entry per user and date these
    are at most as many as days have passed in the month, so at most 31. *)
Theorem getCurrentMonthLogs_month (env : Env) (db : Database) (uid : string) :
  let logs := Supabase.getCurrentMonthLogs env db uid in
  (forall e, In e logs <->
             In e (reading_logs db) /\ user_id e = uid /\
             month_first_day env <= log_date e <= getToday env) /\
  StronglySorted (fun a b => log_date b <= log_date a) logs /\
  (unique_user_date (reading_logs db) ->
   Z.of_nat (List.length logs) <= getDaysPassedThisMonth env <= 31).
Proof.
  intros logs. unfold logs, Supabase.getCurrentMonthLogs.
  rewrite month_start_day.
  assert (Hin : forall e,
             In e (q_order_date_desc
                     (q_lte_date (getToday env)
                        (q_gte_date (month_first_day env)
                           (q_eq_user uid (reading_logs db)))))
             <-> In e (reading_logs db) /\ user_id e = uid /\
                 month_first_day env <= log_date e <= getToday env).
  { intros e. unfold q_order_date_desc. rewrite Array_sort_In.
    unfold q_lte_date, q_gte_date, q_eq_user.
    rewrite !filter_In, !Z.leb_le, String.eqb_eq. tauto. }
  split; [exact Hin |]. split; [apply q_order_date_desc_sorted |].
  intros Huniq. destruct (month_facts env) as [Estart Hd].
  split; [| lia].
  rewrite <- (length_map log_date).
  replace (getDaysPassedThisMonth env)
    with (getToday env - month_first_day env + 1) by lia.
  apply NoDup_days_between; [| | lia].
  - apply (Permutation_NoDup
             (Permutation_map log_date
                (Permutation_sym (Array_sort_perm by_log_date_desc _)))).
    unfold q_lte_date, q_gte_date.
    apply NoDup_map_filter, NoDup_map_filter, unique_user_dates, Huniq.
  - intros x Hx. apply in_map_iff in Hx. destruct Hx as [e [<- He]].
    apply Hin in He. tauto.
Qed.

Lemma getCurrentMonthLogs_month_witness :
  unique_user_date (reading_logs db_abc) /\
  Z.of_nat (List.length (Supabase.getCurrentMonthLogs env_ist db_abc "A"))
  <= getDaysPassedThisMonth env_ist <= 31.
Proof.
  assert (H : unique_user_date (reading_logs db_abc)).
  { unfold unique_user_date. simpl.
    repeat (constructor; [simpl; intuition congruence |]). constructor. }
  split; [exact H |].
  exact (proj2 (proj2 (getCurrentMonthLogs_month env_ist db_abc "A")) H).
Defined.

Example getCurrentMonthLogs_abc :
  map entry_id (Supabase.getCurrentMonthLogs env_ist db_abc "A") = ["l4"; "l2"].
Proof. reflexivity. Qed.

(** The entries that [getUserLogs] returns from a table with at most one
    entry per user and date have pairwise distinct dates: this is the
    shape of the collections that the dashboard hands to
    [calculateStats]. *)
Lemma getUserLogs_distinct_dates (db : Database) (uid : string)
    (limit : option nat) :
  unique_user_date (reading_logs db) ->
  NoDup (map log_date (Supabase.getUserLogs db uid limit)).
Proof.
  intros Huniq. unfold Supabase.getUserLogs, q_limit.
  rewrite <- firstn_map. apply firstn_NoDup.
  apply (Permutation_NoDup
           (Permutation_map log_date
              (Permutation_sym (Array_sort_perm by_log_date_desc _)))).
  apply unique_user_dates, Huniq.
Qed.
